(** * etasker: the request pipeline of the task API

    A shallow embedding of [server/src/middleware/auth.ts] and
    [server/src/routes/tasks.ts], together with the statements the
    specification makes about them.

    Conventions of the embedding.
    - JavaScript strings are [string]; characters are the code units
      below 256.
    - A JavaScript number that the handlers look at is either [NaN] or
      an integer [Int z]; the rounding of integers above 2^53 is not
      represented.
    - The [tasks] table is the one the routes are written against
      (camel-case columns, statuses todo/in_progress/review/done,
      priorities low/medium/high/critical).  The table is a list of
      rows plus the value of the [serial] sequence; every row holds
      values of its columns' types (32-bit integers in the integer
      columns, text without the character NUL in the text columns).
    - A statement raises, and the handler's [catch] arm answers 500,
      when it binds a value its column cannot hold (an integer outside
      32 bits or [NaN] for an integer column, a word outside the
      enumeration for [status] or [priority], a string with a NUL for
      a text column or a [LIKE] pattern, an invalid [Date] or one
      outside the range of the timestamp column), when the sequence
      of the [serial] column is exhausted, and when a foreign key names
      a project or a user that does not exist.  An insert refused for
      a foreign key has already drawn its id: the sequence has moved
      although no row was added.
    - The tables of projects and users, which the task routes never
      write, are parameters ([project_exists], [user_exists]), and so
      is the range of the timestamp column ([timestamp_ok]).
    - Query parameters are strings or missing; a request is handled on
      its own, one after the other.  The clock's reading [now] is a
      time the timestamp column holds.
    - What the external libraries compute ([jwt.verify], zod's
      [datetime] check, the [Date] constructor) is a parameter of the
      development.  *)

From Stdlib Require Import ZArith List String Ascii Bool Lia.
From Stdlib Require Import Permutation Sorted.
Import ListNotations.

Set Warnings "-register-all".

Open Scope string_scope.
Open Scope Z_scope.

(* ------------------------------------------------------------------ *)
(** ** JavaScript primitives used by the routes *)

Module JS.

(** A number as the handlers observe it. *)
Inductive number : Type :=
| NaN : number
| Int : Z -> number.

Definition isNaN (n : number) : bool :=
  match n with NaN => true | Int _ => false end.

(** [StrWhiteSpaceChar], restricted to code units below 256. *)
Definition isWhiteSpace (c : ascii) : bool :=
  let n := nat_of_ascii c in
  (Nat.eqb n 9 || Nat.eqb n 10 || Nat.eqb n 11 || Nat.eqb n 12
   || Nat.eqb n 13 || Nat.eqb n 32 || Nat.eqb n 160)%bool.

Fixpoint trimStart (s : string) : string :=
  match s with
  | String c s' => if isWhiteSpace c then trimStart s' else s
  | EmptyString => s
  end.

(** Value of a character as a digit in some radix up to 36. *)
Definition digitValue (c : ascii) : option Z :=
  let n := Z.of_nat (nat_of_ascii c) in
  if (48 <=? n) && (n <=? 57) then Some (n - 48)
  else if (97 <=? n) && (n <=? 122) then Some (n - 87)
  else if (65 <=? n) && (n <=? 90) then Some (n - 55)
  else None.

(** The longest prefix of radix-[R] digits, read as an integer;
    [acc] is [None] until a first digit has been seen. *)
Fixpoint digits (R : Z) (s : string) (acc : option Z) : option Z :=
  match s with
  | String c s' =>
      match digitValue c with
      | Some d =>
          if d <? R
          then digits R s' (Some (match acc with Some a => a | None => 0 end * R + d))
          else acc
      | None => acc
      end
  | EmptyString => acc
  end.

(** [parseInt(s)] with the radix left out: leading white space is
    skipped, then an optional sign, then an optional [0x]/[0X] that
    switches to radix 16; no digit at all gives [NaN]. *)
Definition parseInt (s : string) : number :=
  let S0 := trimStart s in
  let '(sign, S1) :=
    match S0 with
    | String "-" r => (-1, r)
    | String "+" r => (1, r)
    | _ => (1, S0)
    end in
  let '(R, S2) :=
    match S1 with
    | String "0" (String "x" r) => (16, r)
    | String "0" (String "X" r) => (16, r)
    | _ => (10, S1)
    end in
  match digits R S2 None with
  | Some m => Int (sign * m)
  | None => NaN
  end.

(** [s.split(sep)] for a one-character separator. *)
Fixpoint split (sep : ascii) (s : string) : list string :=
  match s with
  | EmptyString => [EmptyString]
  | String c s' =>
      if Ascii.eqb c sep then EmptyString :: split sep s'
      else match split sep s' with
           | h :: t => String c h :: t
           | [] => [String c EmptyString]
           end
  end.

(** Truthiness of a value of type [string | undefined]. *)
Definition truthy (v : option string) : bool :=
  match v with
  | Some s => negb (String.eqb s "")
  | None => false
  end.

(** [a && f(a)] on [string | undefined]: a falsy left operand is the
    result (which is then falsy too). *)
Definition and_then (v : option string) (f : string -> option string)
  : option string :=
  match v with
  | Some s => if String.eqb s "" then Some s else f s
  | None => None
  end.

(** [s.startsWith(x)] *)
Fixpoint startsWith (s x : string) {struct x} : bool :=
  match x with
  | EmptyString => true
  | String c x' =>
      match s with
      | String c' s' => Ascii.eqb c' c && startsWith s' x'
      | EmptyString => false
      end
  end.

(** [s.includes(x)]: [x] occurs in [s] as a contiguous substring. *)
Fixpoint includes (s x : string) : bool :=
  startsWith s x
  || match s with
     | String _ s' => includes s' x
     | EmptyString => false
     end.

End JS.

(* ------------------------------------------------------------------ *)
(** ** Data model *)

Inductive Status : Type := todo | in_progress | review | done.
Inductive Priority : Type := low | medium | high | critical.

Definition status_name (s : Status) : string :=
  match s with
  | todo => "todo" | in_progress => "in_progress"
  | review => "review" | done => "done"
  end.

Definition priority_name (p : Priority) : string :=
  match p with
  | low => "low" | medium => "medium" | high => "high" | critical => "critical"
  end.

(** The identity attached to a request ([AuthRequest.user]). *)
Module User.
Record t : Type := mk { id : Z; role : string }.
End User.

(** A row of the [tasks] table.  Timestamps are milliseconds. *)
Module Task.
Record t : Type := mk {
  id : Z;
  title : string;
  description : option string;
  status : Status;
  priority : Priority;
  projectId : Z;
  assignedTo : option Z;
  createdBy : Z;
  dueDate : option Z;
  createdAt : Z;
  updatedAt : Z
}.
End Task.

(** JSON values as [express.json()] hands them over.  A number is kept
    when it is an integer; of every other number, [JFraction] keeps
    whether it is above zero. *)
Inductive json : Type :=
| JNull : json
| JBool : bool -> json
| JNum : Z -> json
| JFraction (above_zero : bool) : json
| JStr : string -> json
| JArr : list json -> json
| JObj : list (string * json) -> json.

(** [obj[key]]; [None] is [undefined]. *)
Fixpoint get_field (key : string) (fields : list (string * json)) : option json :=
  match fields with
  | [] => None
  | (k, v) :: rest => if String.eqb k key then Some v else get_field key rest
  end.

(** One entry of [ZodError.errors]: the field that was rejected. *)
Definition Issue : Type := string.

Inductive ResponseBody : Type :=
| ErrorBody (error : string)
| ValidationBody (error : string) (details : list Issue)
| TaskListBody (tasks : list Task.t) (count : nat)
| TaskBody (task : Task.t)
| MessageTaskBody (message : string) (task : Task.t)
| MessageBody (message : string).

Record Response : Type := mkResponse {
  code : Z;
  payload : ResponseBody
}.

(** [res.status(c).json(b)] and [res.json(b)]. *)
Definition status_json (c : Z) (b : ResponseBody) : Response := mkResponse c b.
Definition res_json (b : ResponseBody) : Response := mkResponse 200 b.

(** The query string of [GET /api/tasks]. *)
Record Query : Type := mkQuery {
  q_status : option string;
  q_priority : option string;
  q_projectId : option string;
  q_assignedTo : option string;
  q_search : option string
}.

Record Request : Type := mkRequest {
  authorization : option string;   (* req.headers['authorization'] *)
  param_id : string;               (* req.params.id *)
  query : Query;                   (* req.query *)
  body : json;                     (* req.body *)
  user : option User.t             (* req.user *)
}.

Definition set_user (req : Request) (u : User.t) : Request :=
  mkRequest (authorization req) (param_id req) (query req) (body req) (Some u).

(** What a middleware does: answer, or hand the request on. *)
Inductive Middleware : Type :=
| Respond (res : Response)
| Next (req : Request).

(** [c] occurs in [s]. *)
Fixpoint mentions (c : ascii) (s : string) : bool :=
  match s with
  | EmptyString => false
  | String c' s' => Ascii.eqb c' c || mentions c s'
  end.

(* ------------------------------------------------------------------ *)
(** ** The query layer: conditions, [LIKE], ordering *)

Module Sql.

Inductive Column : Type :=
| col_id | col_title | col_description | col_status | col_priority
| col_projectId | col_assignedTo | col_createdAt.

(** A value bound into a statement, or read from a column. *)
Inductive Value : Type :=
| VNull : Value
| VInt : Z -> Value
| VNaN : Value
| VText : string -> Value.

(** The conditions the routes build with [eq], [like], [or], [and]. *)
Inductive Cond : Type :=
| eq_ (c : Column) (v : Value)
| like_ (c : Column) (pattern : string)
| or_ (cs : list Cond)
| and_ (cs : list Cond).

Definition of_number (n : JS.number) : Value :=
  match n with JS.NaN => VNaN | JS.Int z => VInt z end.

Definition of_option_text (o : option string) : Value :=
  match o with Some s => VText s | None => VNull end.

Definition of_option_int (o : option Z) : Value :=
  match o with Some z => VInt z | None => VNull end.

Definition column_value (c : Column) (t : Task.t) : Value :=
  match c with
  | col_id => VInt (Task.id t)
  | col_title => VText (Task.title t)
  | col_description => of_option_text (Task.description t)
  | col_status => VText (status_name (Task.status t))
  | col_priority => VText (priority_name (Task.priority t))
  | col_projectId => VInt (Task.projectId t)
  | col_assignedTo => of_option_int (Task.assignedTo t)
  | col_createdAt => VInt (Task.createdAt t)
  end.

(** Three-valued truth: [None] is SQL's unknown. *)
Definition and3 (a b : option bool) : option bool :=
  match a, b with
  | Some false, _ | _, Some false => Some false
  | Some true, Some true => Some true
  | _, _ => None
  end.

Definition or3 (a b : option bool) : option bool :=
  match a, b with
  | Some true, _ | _, Some true => Some true
  | Some false, Some false => Some false
  | _, _ => None
  end.

(** [a = b] in a statement the database has accepted (see [accepted]
    below: a statement that binds [NaN], an integer outside 32 bits or
    a word outside an enumeration never gets here).  A comparison with
    NULL is unknown; values of different kinds are not equal. *)
Definition value_eq (a b : Value) : option bool :=
  match a, b with
  | VNull, _ | _, VNull => None
  | VInt x, VInt y => Some (x =? y)
  | VText x, VText y => Some (String.eqb x y)
  | _, _ => Some false
  end.

(** A [LIKE] pattern: [%] is any run of characters, [_] is any one
    character, a backslash makes the next character literal. *)
Inductive Token : Type :=
| AnyRun : Token
| AnyOne : Token
| Lit : ascii -> Token.

Fixpoint tokens (p : string) : list Token :=
  match p with
  | EmptyString => []
  | String c r =>
      if Ascii.eqb c "%" then AnyRun :: tokens r
      else if Ascii.eqb c "_" then AnyOne :: tokens r
      else if Ascii.eqb c "\" then
        match r with
        | String c' r' => Lit c' :: tokens r'
        | EmptyString => [Lit c]
        end
      else Lit c :: tokens r
  end.

Fixpoint matches (p : list Token) (s : string) : bool :=
  match p with
  | [] => match s with EmptyString => true | String _ _ => false end
  | Lit c :: p' =>
      match s with
      | String c' s' => Ascii.eqb c c' && matches p' s'
      | EmptyString => false
      end
  | AnyOne :: p' =>
      match s with
      | String _ s' => matches p' s'
      | EmptyString => false
      end
  | AnyRun :: p' =>
      (fix skip (s : string) : bool :=
         matches p' s
         || match s with
            | String _ s' => skip s'
            | EmptyString => false
            end) s
  end.

(** [s LIKE pattern] (case-sensitive). *)
Definition like (s pattern : string) : bool := matches (tokens pattern) s.

Fixpoint eval (c : Cond) (t : Task.t) : option bool :=
  match c with
  | eq_ col v => value_eq (column_value col t) v
  | like_ col pattern =>
      match column_value col t with
      | VText s => Some (like s pattern)
      | VNull => None
      | _ => Some false
      end
  | or_ cs => fold_right (fun c' acc => or3 (eval c' t) acc) (Some false) cs
  | and_ cs => fold_right (fun c' acc => and3 (eval c' t) acc) (Some true) cs
  end.

(** A row is selected when the condition is true (not false, not
    unknown); [where(undefined)] selects every row. *)
Definition selects (w : option Cond) (t : Task.t) : bool :=
  match w with
  | None => true
  | Some c => match eval c t with Some true => true | _ => false end
  end.

Definition select_where (w : option Cond) (table : list Task.t) : list Task.t :=
  filter (selects w) table.

(** [orderBy(desc(tasks.createdAt))], as a stable insertion sort. *)
Fixpoint insert_desc (t : Task.t) (l : list Task.t) : list Task.t :=
  match l with
  | [] => [t]
  | h :: r =>
      if Task.createdAt h <=? Task.createdAt t then t :: l
      else h :: insert_desc t r
  end.

Definition orderBy_desc_createdAt (l : list Task.t) : list Task.t :=
  fold_right insert_desc [] l.

(** The range of an [integer] column and of a [serial] sequence. *)
Definition int4 (z : Z) : bool := (-2147483648 <=? z) && (z <=? 2147483647).

Definition is_status (s : string) : bool :=
  existsb (String.eqb s) (map status_name [todo; in_progress; review; done]).

Definition is_priority (s : string) : bool :=
  existsb (String.eqb s) (map priority_name [low; medium; high; critical]).

(** What a [text] column holds and a text parameter can carry: a
    string without the character NUL. *)
Definition text_ok (s : string) : bool := negb (mentions Ascii.zero s).

(** Whether a parameter can be bound where a value of the column is
    expected. *)
Definition binds (c : Column) (v : Value) : bool :=
  match c, v with
  | col_id, VInt z | col_projectId, VInt z | col_assignedTo, VInt z => int4 z
  | col_status, VText s => is_status s
  | col_priority, VText s => is_priority s
  | col_title, VText s | col_description, VText s => text_ok s
  | _, _ => false
  end.

(** Whether the database accepts the condition: every parameter binds
    to its column, and [LIKE] is applied to text. *)
Fixpoint accepted (c : Cond) : bool :=
  match c with
  | eq_ col v => binds col v
  | like_ col pattern =>
      match col with
      | col_title | col_description => text_ok pattern
      | _ => false
      end
  | or_ cs => forallb accepted cs
  | and_ cs => forallb accepted cs
  end.

(** [await db.select().from(tasks).where(w)]: the selected rows, or
    [None] when the statement raises. *)
Definition run_select (w : option Cond) (table : list Task.t)
  : option (list Task.t) :=
  match w with
  | None => Some (select_where w table)
  | Some c => if accepted c then Some (select_where w table) else None
  end.

(** [.limit(n)] *)
Definition limit (n : nat) (l : list Task.t) : list Task.t := firstn n l.

(** [delete(tasks).where(w)] *)
Definition delete_where (w : option Cond) (table : list Task.t) : list Task.t :=
  filter (fun t => negb (selects w t)) table.

(** A row of the table holds values of its columns' types: 32-bit
    integers in [id], [project_id], [assigned_to] and [created_by],
    text in [title] and [description]. *)
Definition row_ok (t : Task.t) : bool :=
  int4 (Task.id t)
  && text_ok (Task.title t)
  && match Task.description t with Some s => text_ok s | None => true end
  && int4 (Task.projectId t)
  && match Task.assignedTo t with Some a => int4 a | None => true end
  && int4 (Task.createdBy t).

End Sql.

(** The table: its rows, each of them a row the columns can hold, and
    the next value of the [serial] sequence. *)
Record Store : Type := typed_table {
  rows : list Task.t;
  next_id : Z;
  rows_typed : forallb Sql.row_ok rows = true
}.

(** The table with the rows [l].  The routes build a table from rows
    the database has accepted ([rows_appended], [rows_set] and
    [rows_deleted] below: the table they build has exactly these
    rows); an entry no column could hold is not a row. *)
Definition mkStore (l : list Task.t) (n : Z) : Store :=
  typed_table (filter Sql.row_ok l) n (forallb_filter Sql.row_ok l).

(* ------------------------------------------------------------------ *)
(** ** The request validator (zod) *)

Module Zod.

(** The outcome of [schema.parse]: the parsed value, or the issues of
    the [ZodError] it throws. *)
Inductive Parsed (A : Type) : Type :=
| Valid (a : A)
| Invalid (issues : list Issue).

Arguments Valid {A} a.
Arguments Invalid {A} issues.

(** Object schemas check every key and gather the issues of all. *)
Definition ap {A B : Type} (f : Parsed (A -> B)) (x : Parsed A) : Parsed B :=
  match f, x with
  | Valid g, Valid a => Valid (g a)
  | Valid _, Invalid e => Invalid e
  | Invalid e, Valid _ => Invalid e
  | Invalid e1, Invalid e2 => Invalid (e1 ++ e2)
  end.

(** The outcome of one schema on one value: the parsed value, or the
    number of issues the schema has raised. *)
Inductive Checked (A : Type) : Type :=
| Ok (a : A)
| Issues (n : nat).

Arguments Ok {A} a.
Arguments Issues {A} n.

(** A schema for one value: the input is [None] when the key is
    missing ([undefined]). *)
Definition Schema (A : Type) : Type := option json -> Checked A.

Definition string_ : Schema string :=
  fun v => match v with Some (JStr s) => Ok s | _ => Issues 1 end.

Definition min (n : nat) (p : Schema string) : Schema string :=
  fun v => match p v with
           | Ok s => if Nat.leb n (String.length s) then Ok s else Issues 1
           | Issues k => Issues k
           end.

(** [.datetime()], for a given recogniser of ISO-8601 date-times. *)
Definition datetime (ok : string -> bool) (p : Schema string) : Schema string :=
  fun v => match p v with
           | Ok s => if ok s then Ok s else Issues 1
           | Issues k => Issues k
           end.

Fixpoint assoc {A : Type} (s : string) (l : list (string * A)) : option A :=
  match l with
  | [] => None
  | (k, a) :: r => if String.eqb k s then Some a else assoc s r
  end.

Definition enum {A : Type} (values : list (string * A)) : Schema A :=
  fun v => match v with
           | Some (JStr s) =>
               match assoc s values with
               | Some a => Ok a
               | None => Issues 1
               end
           | _ => Issues 1
           end.

(** [z.number()] accepts any number; [.int()] keeps the integers. *)
Definition number : Schema json :=
  fun v => match v with
           | Some (JNum z) => Ok (JNum z)
           | Some (JFraction b) => Ok (JFraction b)
           | _ => Issues 1
           end.

Definition int (p : Schema json) : Schema Z :=
  fun v => match p v with
           | Ok (JNum z) => Ok z
           | Ok _ => Issues 1
           | Issues k => Issues k
           end.

(** A number schema runs every one of its checks and reports each
    that fails: a number that is not an integer is still compared
    with zero. *)
Definition positive (p : Schema Z) : Schema Z :=
  fun v => match p v with
           | Ok z => if 0 <? z then Ok z else Issues 1
           | Issues k =>
               match v with
               | Some (JFraction false) => Issues (S k)
               | _ => Issues k
               end
           end.

Definition optional {A : Type} (p : Schema A) : Schema (option A) :=
  fun v => match v with
           | None => Ok None
           | Some _ =>
               match p v with
               | Ok a => Ok (Some a)
               | Issues k => Issues k
               end
           end.

(** [.default(d)]: a missing input is replaced by [d] and then parsed
    by the inner schema. *)
Definition default {A : Type} (d : json) (p : Schema (option A)) : Schema A :=
  fun v =>
    match p (Some (match v with Some x => x | None => d end)) with
    | Ok (Some a) => Ok a
    | Ok None => Issues 1
    | Issues k => Issues k
    end.

(** One key of a [z.object]: unknown keys are never looked at, so they
    are stripped from the result; every issue of the key's schema is
    reported under the key. *)
Definition field {A : Type} (o : list (string * json)) (key : string)
  (p : Schema A) : Parsed A :=
  match p (get_field key o) with
  | Ok a => Valid a
  | Issues n => Invalid (repeat key n)
  end.

End Zod.

Notation "f <*> x" := (Zod.ap f x) (at level 61, left associativity).

Definition statuses : list (string * Status) :=
  [("todo", todo); ("in_progress", in_progress); ("review", review); ("done", done)].

Definition priorities : list (string * Priority) :=
  [("low", low); ("medium", medium); ("high", high); ("critical", critical)].

(** The output type of [createTaskSchema]. *)
Record CreateTask : Type := mkCreateTask {
  c_title : string;
  c_description : option string;
  c_status : Status;
  c_priority : Priority;
  c_projectId : Z;
  c_assignedTo : option Z;
  c_dueDate : option string
}.

(** The output type of [updateTaskSchema]. *)
Record UpdateTask : Type := mkUpdateTask {
  u_title : option string;
  u_description : option string;
  u_status : option Status;
  u_priority : option Priority;
  u_assignedTo : option Z;
  u_dueDate : option string
}.

(** The [dueDate] entry of the object given to [set]: the [Date] built
    from the payload, or the payload's string left in place. *)
Inductive DueDateValue : Type :=
| AsDate (time : JS.number)
| AsString (s : string).

(** [updateData], the argument of [db.update(tasks).set]. *)
Record UpdateData : Type := mkUpdateData {
  s_title : option string;
  s_description : option string;
  s_status : option Status;
  s_priority : option Priority;
  s_assignedTo : option Z;
  s_dueDate : option DueDateValue;
  s_updatedAt : Z
}.

Definition or_else {A : Type} (o : option A) (a : A) : A :=
  match o with Some x => x | None => a end.

Definition or_keep {A : Type} (o : option A) (a : option A) : option A :=
  match o with Some x => Some x | None => a end.

(** A timestamp column is written from a [Date]: the driver mapping
    calls [toISOString] on the value, which a string does not have and
    which raises on an invalid [Date]. *)
Definition writable (d : UpdateData) : bool :=
  match s_dueDate d with
  | Some (AsString _) => false
  | Some (AsDate JS.NaN) => false
  | _ => true
  end.

(** [set] writes the columns that are present in its argument. *)
Definition set_columns (d : UpdateData) (t : Task.t) : Task.t :=
  Task.mk (Task.id t)
    (or_else (s_title d) (Task.title t))
    (or_keep (s_description d) (Task.description t))
    (or_else (s_status d) (Task.status t))
    (or_else (s_priority d) (Task.priority t))
    (Task.projectId t)
    (or_keep (s_assignedTo d) (Task.assignedTo t))
    (Task.createdBy t)
    (match s_dueDate d with
     | Some (AsDate (JS.Int ms)) => Some ms
     | _ => Task.dueDate t
     end)
    (Task.createdAt t)
    (s_updatedAt d).

(** [update(tasks).set(d).where(w).returning()] once the database has
    accepted the values: the new table and the rows that were written,
    or [None] when the statement cannot be built (it then changes
    nothing). *)
Definition update_where (d : UpdateData) (w : option Sql.Cond)
  (table : list Task.t) : option (list Task.t * list Task.t) :=
  if writable d then
    Some (map (fun t => if Sql.selects w t then set_columns d t else t) table,
          map (set_columns d) (Sql.select_where w table))
  else None.

(** The object given to [db.insert(tasks).values]; the due date is
    the time value of the [Date], [NaN] for an invalid one. *)
Record NewTask : Type := mkNewTask {
  n_title : string;
  n_description : option string;
  n_status : Status;
  n_priority : Priority;
  n_projectId : Z;
  n_assignedTo : option Z;
  n_createdBy : Z;
  n_dueDate : option JS.number
}.

(* ------------------------------------------------------------------ *)
(** ** Middleware and routes *)

(** What [jwt.verify] can throw.  [TokenExpiredError] and
    [NotBeforeError] are subclasses of [JsonWebTokenError]. *)
Inductive Exception : Type :=
| JsonWebTokenError    (* malformed token, bad signature, ... *)
| TokenExpiredError
| NotBeforeError
| OtherError.

Definition instanceof_JsonWebTokenError (e : Exception) : bool :=
  match e with
  | JsonWebTokenError | TokenExpiredError | NotBeforeError => true
  | OtherError => false
  end.

(** The claims of a token ([JWTPayload]). *)
Record JWTPayload : Type := mkJWTPayload {
  userId : Z;
  jwt_role : string
}.

Inductive Verified : Type :=
| Decoded (claims : JWTPayload)
| Throws (e : Exception).

(* ------------------------------------------------------------------ *)
(** ** A concrete deployment, for the scenarios below *)

Module Demo.

Definition secret : string := "s3cret".

(** A verifier that knows three tokens. *)
Definition verify (token key : string) : Verified :=
  if negb (String.eqb key secret) then Throws JsonWebTokenError
  else if String.eqb token "alice" then Decoded (mkJWTPayload 7 "user")
  else if String.eqb token "root" then Decoded (mkJWTPayload 1 "admin")
  else if String.eqb token "old" then Throws TokenExpiredError
  else if String.eqb token "boom" then Throws OtherError
  else Throws JsonWebTokenError.

Definition is_datetime (s : string) : bool := String.eqb s "2024-05-01T10:00:00Z".
Definition to_ms (s : string) : JS.number := JS.Int 1714557600000.

(** Project 5 and the users 1, 3 and 7; this century. *)
Definition is_project (z : Z) : bool := z =? 5.
Definition is_user (z : Z) : bool := (z =? 1) || (z =? 3) || (z =? 7).
Definition in_range (ms : Z) : bool := (946684800000 <=? ms) && (ms <? 4102444800000).

Definition no_query : Query := mkQuery None None None None None.

Definition request (auth : option string) (id : string) (q : Query) (b : json)
  : Request := mkRequest auth id q b None.

Definition alice : User.t := User.mk 7 "user".
Definition root : User.t := User.mk 1 "admin".

Definition as_user (u : User.t) (id : string) (q : Query) (b : json) : Request :=
  mkRequest None id q b (Some u).

Definition task1 : Task.t :=
  Task.mk 1 "Implement feature X" None todo high 5 (Some 7) 7 None 100 100.
Definition task2 : Task.t :=
  Task.mk 2 "Fix bug" (Some "crash on start") done medium 5 None 3 None 200 250.

Definition db : Store := mkStore [task1; task2] 3.

(** [{title: "Fix bug", projectId: 5, createdBy: 99}] *)
Definition fix_bug : json :=
  JObj [("title", JStr "Fix bug"); ("projectId", JNum 5); ("createdBy", JNum 99)].

End Demo.

Section Server.

(** [jwt.verify(token, secret)] and the server's secret. *)
Variable jwt_verify : string -> string -> Verified.
Variable JWT_SECRET : string.

(** The regular expression behind [z.string().datetime()], and
    [new Date(s).getTime()] ([NaN] for an invalid date). *)
Variable datetime_ok : string -> bool.
Variable Date_parse : string -> JS.number.

(** The ids of the projects and of the users tables, and the times
    the timestamp column holds. *)
Variable project_exists : Z -> bool.
Variable user_exists : Z -> bool.
Variable timestamp_ok : Z -> bool.

(** *** [middleware/auth.ts] *)

Definition bearer_token (req : Request) : option string :=
  JS.and_then (authorization req) (fun h => nth_error (JS.split " " h) 1).

Definition authenticateToken (req : Request) : Middleware :=
  match bearer_token req with
  | Some token =>
      if JS.truthy (Some token) then
        match jwt_verify token JWT_SECRET with
        | Decoded decoded =>
            Next (set_user req (User.mk (userId decoded) (jwt_role decoded)))
        | Throws e =>
            if instanceof_JsonWebTokenError e
            then Respond (status_json 403 (ErrorBody "Invalid or expired token"))
            else Respond (status_json 500 (ErrorBody "Authentication error"))
        end
      else Respond (status_json 401 (ErrorBody "Access token required"))
  | None => Respond (status_json 401 (ErrorBody "Access token required"))
  end.

Definition requireAdmin (req : Request) : Middleware :=
  match user req with
  | None => Respond (status_json 401 (ErrorBody "Authentication required"))
  | Some u =>
      if negb (String.eqb (User.role u) "admin")
      then Respond (status_json 403 (ErrorBody "Admin access required"))
      else Next req
  end.

(** *** [routes/tasks.ts]: the two schemas *)

Definition createTaskSchema (b : json) : Zod.Parsed CreateTask :=
  match b with
  | JObj o =>
      Zod.Valid mkCreateTask
      <*> Zod.field o "title" (Zod.min 1 Zod.string_)
      <*> Zod.field o "description" (Zod.optional Zod.string_)
      <*> Zod.field o "status"
            (Zod.default (JStr "todo") (Zod.optional (Zod.enum statuses)))
      <*> Zod.field o "priority"
            (Zod.default (JStr "medium") (Zod.optional (Zod.enum priorities)))
      <*> Zod.field o "projectId" (Zod.positive (Zod.int Zod.number))
      <*> Zod.field o "assignedTo"
            (Zod.optional (Zod.positive (Zod.int Zod.number)))
      <*> Zod.field o "dueDate"
            (Zod.optional (Zod.datetime datetime_ok Zod.string_))
  | _ => Zod.Invalid [""]
  end.

Definition updateTaskSchema (b : json) : Zod.Parsed UpdateTask :=
  match b with
  | JObj o =>
      Zod.Valid mkUpdateTask
      <*> Zod.field o "title" (Zod.optional (Zod.min 1 Zod.string_))
      <*> Zod.field o "description" (Zod.optional Zod.string_)
      <*> Zod.field o "status" (Zod.optional (Zod.enum statuses))
      <*> Zod.field o "priority" (Zod.optional (Zod.enum priorities))
      <*> Zod.field o "assignedTo"
            (Zod.optional (Zod.positive (Zod.int Zod.number)))
      <*> Zod.field o "dueDate"
            (Zod.optional (Zod.datetime datetime_ok Zod.string_))
  | _ => Zod.Invalid [""]
  end.

(** *** [GET /api/tasks] *)

(** [if (v) conditions.push(c(v))] *)
Definition push_if (v : option string) (c : string -> Sql.Cond) : list Sql.Cond :=
  match v with
  | Some s => if JS.truthy v then [c s] else []
  | None => []
  end.

Definition conditions (q : Query) : list Sql.Cond :=
  push_if (q_status q) (fun s => Sql.eq_ Sql.col_status (Sql.VText s))
  ++ push_if (q_priority q) (fun s => Sql.eq_ Sql.col_priority (Sql.VText s))
  ++ push_if (q_projectId q)
       (fun s => Sql.eq_ Sql.col_projectId (Sql.of_number (JS.parseInt s)))
  ++ push_if (q_assignedTo q)
       (fun s => Sql.eq_ Sql.col_assignedTo (Sql.of_number (JS.parseInt s)))
  ++ push_if (q_search q)
       (fun s => Sql.or_ [Sql.like_ Sql.col_title ("%" ++ s ++ "%");
                          Sql.like_ Sql.col_description ("%" ++ s ++ "%")]).

(** [conditions.length > 0 ? and(...conditions) : undefined] *)
Definition where_clause (q : Query) : option Sql.Cond :=
  match conditions q with
  | [] => None
  | cs => Some (Sql.and_ cs)
  end.

Definition get_tasks (req : Request) (db : Store) : Response * Store :=
  match Sql.run_select (where_clause (query req)) (rows db) with
  | Some selected =>
      let taskList := Sql.orderBy_desc_createdAt selected in
      (res_json (TaskListBody taskList (List.length taskList)), db)
  | None => (status_json 500 (ErrorBody "Failed to fetch tasks"), db)
  end.

(** *** [GET /api/tasks/:id] *)

(** [eq(tasks.id, taskId)] *)
Definition by_id (taskId : JS.number) : option Sql.Cond :=
  Some (Sql.eq_ Sql.col_id (Sql.of_number taskId)).

Definition get_task (req : Request) (db : Store) : Response * Store :=
  let taskId := JS.parseInt (param_id req) in
  if JS.isNaN taskId then (status_json 400 (ErrorBody "Invalid task ID"), db)
  else
    match Sql.run_select (by_id taskId) (rows db) with
    | None => (status_json 500 (ErrorBody "Failed to fetch task"), db)
    | Some selected =>
        match Sql.limit 1 selected with
        | [] => (status_json 404 (ErrorBody "Task not found"), db)
        | task :: _ => (res_json (TaskBody task), db)
        end
    end.

(** *** [POST /api/tasks] *)

(** The driver and the columns take the values: the texts have no
    NUL, the integers fit in 32 bits and the due date is a valid
    [Date] in the column's range. *)
Definition bindable (v : NewTask) : bool :=
  Sql.text_ok (n_title v)
  && match n_description v with Some s => Sql.text_ok s | None => true end
  && Sql.int4 (n_projectId v)
  && match n_assignedTo v with Some a => Sql.int4 a | None => true end
  && Sql.int4 (n_createdBy v)
  && match n_dueDate v with
     | Some JS.NaN => false
     | Some (JS.Int ms) => timestamp_ok ms
     | None => true
     end.

(** The foreign keys of the row name a project and users that exist. *)
Definition referenced (v : NewTask) : bool :=
  project_exists (n_projectId v)
  && match n_assignedTo v with Some a => user_exists a | None => true end
  && user_exists (n_createdBy v).

(** [insert(tasks).values(v).returning()] at the time [now]: the new
    row, if the statement did not raise, and the table afterwards.
    Values that do not bind and an exhausted sequence stop the
    statement before it runs; a foreign key is checked once the id has
    been drawn. *)
Definition insert_returning (now : Z) (v : NewTask) (db : Store)
  : option Task.t * Store :=
  if negb (bindable v) then (None, db)
  else if negb (Sql.int4 (next_id db)) then (None, db)
  else if negb (referenced v) then (None, mkStore (rows db) (next_id db + 1))
  else
    let newTask :=
      Task.mk (next_id db) (n_title v) (n_description v) (n_status v)
        (n_priority v) (n_projectId v) (n_assignedTo v) (n_createdBy v)
        (match n_dueDate v with Some (JS.Int ms) => Some ms | _ => None end)
        now now in
    (Some newTask, mkStore (rows db ++ [newTask]) (next_id db + 1)).

Definition post_task (now : Z) (req : Request) (db : Store) : Response * Store :=
  match createTaskSchema (body req) with
  | Zod.Invalid issues =>
      (status_json 400 (ValidationBody "Validation error" issues), db)
  | Zod.Valid validatedData =>
      match user req with
      | None =>
          (* req.user!.id on undefined: a TypeError, not a ZodError *)
          (status_json 500 (ErrorBody "Failed to create task"), db)
      | Some u =>
          match
            insert_returning now
              (mkNewTask
                 (c_title validatedData)
                 (c_description validatedData)
                 (c_status validatedData)
                 (c_priority validatedData)
                 (c_projectId validatedData)
                 (c_assignedTo validatedData)
                 (User.id u)
                 (if JS.truthy (c_dueDate validatedData)
                  then option_map Date_parse (c_dueDate validatedData)
                  else None))
              db
          with
          | (Some newTask, db') =>
              (status_json 201 (MessageTaskBody "Task created successfully" newTask),
               db')
          | (None, db') =>
              (status_json 500 (ErrorBody "Failed to create task"), db')
          end
      end
  end.

(** *** [PUT /api/tasks/:id] *)

Definition updateData (now : Z) (validatedData : UpdateTask) : UpdateData :=
  mkUpdateData
    (u_title validatedData)
    (u_description validatedData)
    (u_status validatedData)
    (u_priority validatedData)
    (u_assignedTo validatedData)
    (match u_dueDate validatedData with
     | Some s => if JS.truthy (Some s) then Some (AsDate (Date_parse s))
                 else Some (AsString s)
     | None => None
     end)
    now.

(** The columns and the foreign key take the values of [set]: the
    texts have no NUL, an assignee fits in 32 bits and is a user, a due
    date is in the range of the timestamp column. *)
Definition settable (d : UpdateData) : bool :=
  match s_title d with Some s => Sql.text_ok s | None => true end
  && match s_description d with Some s => Sql.text_ok s | None => true end
  && match s_assignedTo d with
     | Some a => Sql.int4 a && user_exists a
     | None => true
     end
  && match s_dueDate d with
     | Some (AsDate (JS.Int ms)) => timestamp_ok ms
     | _ => true
     end.

(** [await db.update(tasks).set(d).where(w).returning()]; [None] when
    the statement raises, which changes nothing. *)
Definition run_update (d : UpdateData) (w : option Sql.Cond)
  (table : list Task.t) : option (list Task.t * list Task.t) :=
  if settable d then update_where d w table else None.

Definition put_task (now : Z) (req : Request) (db : Store) : Response * Store :=
  let taskId := JS.parseInt (param_id req) in
  if JS.isNaN taskId then (status_json 400 (ErrorBody "Invalid task ID"), db)
  else
    match updateTaskSchema (body req) with
    | Zod.Invalid issues =>
        (status_json 400 (ValidationBody "Validation error" issues), db)
    | Zod.Valid validatedData =>
        match Sql.run_select (by_id taskId) (rows db) with
        | None => (status_json 500 (ErrorBody "Failed to update task"), db)
        | Some selected =>
            match Sql.limit 1 selected with
            | [] => (status_json 404 (ErrorBody "Task not found"), db)
            | _ :: _ =>
                match run_update (updateData now validatedData) (by_id taskId) (rows db) with
                | None =>
                    (status_json 500 (ErrorBody "Failed to update task"), db)
                | Some (table, updatedTask :: _) =>
                    (res_json (MessageTaskBody "Task updated successfully" updatedTask),
                     mkStore table (next_id db))
                | Some (table, []) =>
                    (* [updatedTask] is undefined and left out of the JSON *)
                    (res_json (MessageBody "Task updated successfully"),
                     mkStore table (next_id db))
                end
            end
        end
    end.

(** *** [DELETE /api/tasks/:id] *)

Definition delete_task (req : Request) (db : Store) : Response * Store :=
  let taskId := JS.parseInt (param_id req) in
  if JS.isNaN taskId then (status_json 400 (ErrorBody "Invalid task ID"), db)
  else
    match Sql.run_select (by_id taskId) (rows db) with
    | None => (status_json 500 (ErrorBody "Failed to delete task"), db)
    | Some selected =>
        match Sql.limit 1 selected with
        | [] => (status_json 404 (ErrorBody "Task not found"), db)
        | _ :: _ =>
            (res_json (MessageBody "Task deleted successfully"),
             mkStore (Sql.delete_where (by_id taskId) (rows db)) (next_id db))
        end
    end.

(** A route guarded by [authenticateToken]. *)
Definition protected (handler : Request -> Store -> Response * Store)
  (req : Request) (db : Store) : Response * Store :=
  match authenticateToken req with
  | Respond res => (res, db)
  | Next req' => handler req' db
  end.

(* ------------------------------------------------------------------ *)
(** ** Vocabulary of the statements *)

(** A query parameter is provided with value [s]: it is there, and it
    is not the empty string. *)
Definition provided (v : option string) (s : string) : Prop :=
  v = Some s /\ s <> "".

(** No row of the table has this id. *)
Definition absent (taskId : Z) (db : Store) : Prop :=
  forall t, In t (rows db) -> Task.id t <> taskId.

(** A filter parameter that is provided has a value of its column's
    type. *)
Definition typed (v : option string) (ok : string -> bool) : bool :=
  match v with
  | Some s => if String.eqb s "" then true else ok s
  | None => true
  end.

Definition is_int4 (s : string) : bool :=
  match JS.parseInt s with
  | JS.Int z => Sql.int4 z
  | JS.NaN => false
  end.

(** The filter parameters make a statement the database accepts: a
    status and a priority of the enumerations, a project and an
    assignee that parse to 32-bit integers, a search string without
    NUL. *)
Definition typed_filters (q : Query) : bool :=
  typed (q_status q) Sql.is_status
  && typed (q_priority q) Sql.is_priority
  && typed (q_projectId q) is_int4
  && typed (q_assignedTo q) is_int4
  && typed (q_search q) Sql.text_ok.

(** The answers of the error paths. *)
Definition Unauthenticated (msg : string) : Response := status_json 401 (ErrorBody msg).
Definition Forbidden (msg : string) : Response := status_json 403 (ErrorBody msg).
Definition InternalError (msg : string) : Response := status_json 500 (ErrorBody msg).
Definition NotFound : Response := status_json 404 (ErrorBody "Task not found").
Definition InvalidTaskId : Response := status_json 400 (ErrorBody "Invalid task ID").
Definition ValidationError (issues : list Issue) : Response :=
  status_json 400 (ValidationBody "Validation error" issues).

(** The search string has none of the characters [LIKE] gives a
    meaning to. *)
Definition plain (s : string) : bool :=
  negb (mentions "%" s) && negb (mentions "_" s) && negb (mentions "\" s).

(** The pattern that matches exactly [s]: one literal per character. *)
Fixpoint lits (s : string) : list Sql.Token :=
  match s with
  | EmptyString => []
  | String c s' => Sql.Lit c :: lits s'
  end.

(** No filter parameter is provided. *)
Definition no_filter (q : Query) : Prop :=
  JS.truthy (q_status q) = false /\ JS.truthy (q_priority q) = false
  /\ JS.truthy (q_projectId q) = false /\ JS.truthy (q_assignedTo q) = false
  /\ JS.truthy (q_search q) = false.

Definition newer_first (a b : Task.t) : Prop :=
  Task.createdAt b <= Task.createdAt a.

(** The values POST [/api/tasks] inserts for validated data and a
    caller, and the row they make with an id and a time. *)
Definition new_values (d : CreateTask) (u : User.t) : NewTask :=
  mkNewTask (c_title d) (c_description d) (c_status d) (c_priority d)
    (c_projectId d) (c_assignedTo d) (User.id u)
    (if JS.truthy (c_dueDate d) then option_map Date_parse (c_dueDate d) else None).

Definition new_row (now : Z) (v : NewTask) (id : Z) : Task.t :=
  Task.mk id (n_title v) (n_description v) (n_status v) (n_priority v)
    (n_projectId v) (n_assignedTo v) (n_createdBy v)
    (match n_dueDate v with Some (JS.Int ms) => Some ms | _ => None end)
    now now.


(** The database takes the values of an accepted update payload:
    title and description have no NUL, the assignee fits in 32 bits
    and exists, the due date is a valid date in the range of the
    column. *)
Definition update_accepted (d : UpdateTask) : bool :=
  match u_title d with Some s => Sql.text_ok s | None => true end
  && match u_description d with Some s => Sql.text_ok s | None => true end
  && match u_assignedTo d with
     | Some a => Sql.int4 a && user_exists a
     | None => true
     end
  && match u_dueDate d with
     | Some s =>
         match Date_parse s with
         | JS.Int ms => timestamp_ok ms
         | JS.NaN => false
         end
     | None => true
     end.

(** The part of a row an update must not touch. *)
Definition id_and_creator (t : Task.t) : Z * Z := (Task.id t, Task.createdBy t).

(** What the specification says an update does to a task: a field of
    the update schema that the payload carries takes the payload's
    value, [updatedAt] becomes the current time, everything else
    stays. *)
Definition merged (o : list (string * json)) (now : Z) (t : Task.t) : Task.t :=
  Task.mk (Task.id t)
    (match get_field "title" o with Some (JStr s) => s | _ => Task.title t end)
    (match get_field "description" o with
     | Some (JStr s) => Some s | _ => Task.description t end)
    (match get_field "status" o with
     | Some (JStr s) => or_else (Zod.assoc s statuses) (Task.status t)
     | _ => Task.status t end)
    (match get_field "priority" o with
     | Some (JStr s) => or_else (Zod.assoc s priorities) (Task.priority t)
     | _ => Task.priority t end)
    (Task.projectId t)
    (match get_field "assignedTo" o with
     | Some (JNum z) => Some z | _ => Task.assignedTo t end)
    (Task.createdBy t)
    (match get_field "dueDate" o with
     | Some (JStr s) =>
         match Date_parse s with
         | JS.Int ms => Some ms
         | JS.NaN => Task.dueDate t
         end
     | _ => Task.dueDate t end)
    (Task.createdAt t)
    now.

(** The primary key and its sequence: ids are distinct and below the
    next value of the [serial] column. *)
Definition well_keyed (db : Store) : Prop :=
  NoDup (map Task.id (rows db))
  /\ (forall t, In t (rows db) -> Task.id t < next_id db).

(** What the two schemas let into a row. *)
Definition well_formed (t : Task.t) : Prop :=
  Task.title t <> ""
  /\ 0 < Task.projectId t
  /\ (forall a, Task.assignedTo t = Some a -> 0 < a).

(** The columns no route writes after the insert. *)
Definition fixed_part (t : Task.t) : Z * Z * Z * Z :=
  (Task.id t, Task.projectId t, Task.createdBy t, Task.createdAt t).

(** The request with another [Authorization] header. *)
Definition with_authorization (req : Request) (h : option string) : Request :=
  mkRequest h (param_id req) (query req) (body req) (user req).

(** The row a create payload describes, for the caller [u], the
    sequence value [id] and the time [now]. *)
Definition created (o : list (string * json)) (u : User.t) (now id : Z) : Task.t :=
  Task.mk id
    (match get_field "title" o with Some (JStr s) => s | _ => "" end)
    (match get_field "description" o with Some (JStr s) => Some s | _ => None end)
    (match get_field "status" o with
     | Some (JStr s) => or_else (Zod.assoc s statuses) todo
     | _ => todo end)
    (match get_field "priority" o with
     | Some (JStr s) => or_else (Zod.assoc s priorities) medium
     | _ => medium end)
    (match get_field "projectId" o with Some (JNum z) => z | _ => 0 end)
    (match get_field "assignedTo" o with Some (JNum z) => Some z | _ => None end)
    (User.id u)
    (match get_field "dueDate" o with
     | Some (JStr s) =>
         if String.eqb s "" then None
         else match Date_parse s with JS.Int ms => Some ms | JS.NaN => None end
     | _ => None end)
    now now.

(** The bodies the create schema accepts, key by key. *)
Definition creatable (o : list (string * json)) : Prop :=
  (exists s, get_field "title" o = Some (JStr s) /\ s <> "")
  /\ (get_field "description" o = None
      \/ exists s, get_field "description" o = Some (JStr s))
  /\ (get_field "status" o = None
      \/ exists st, get_field "status" o = Some (JStr (status_name st)))
  /\ (get_field "priority" o = None
      \/ exists p, get_field "priority" o = Some (JStr (priority_name p)))
  /\ (exists z, get_field "projectId" o = Some (JNum z) /\ 0 < z)
  /\ (get_field "assignedTo" o = None
      \/ exists z, get_field "assignedTo" o = Some (JNum z) /\ 0 < z)
  /\ (get_field "dueDate" o = None
      \/ exists s, get_field "dueDate" o = Some (JStr s) /\ datetime_ok s = true).

(** A non-empty run of decimal digits. *)
Definition decimal_digit (c : ascii) : bool :=
  match JS.digitValue c with
  | Some d => d <? 10
  | None => false
  end.

Fixpoint decimal_digits (s : string) : bool :=
  match s with
  | EmptyString => true
  | String c s' => decimal_digit c && decimal_digits s'
  end.

(** What may follow the digits of an id without changing it: nothing,
    or a character that is neither a digit nor the [x] of a radix
    prefix. *)
Definition trailing (rest : string) : bool :=
  match rest with
  | EmptyString => true
  | String c _ =>
      negb (decimal_digit c) && negb (Ascii.eqb c "x") && negb (Ascii.eqb c "X")
  end.

(** The bodies the update schema accepts, key by key. *)
Definition updatable (o : list (string * json)) : Prop :=
  (get_field "title" o = None
   \/ exists s, get_field "title" o = Some (JStr s) /\ s <> "")
  /\ (get_field "description" o = None
      \/ exists s, get_field "description" o = Some (JStr s))
  /\ (get_field "status" o = None
      \/ exists st, get_field "status" o = Some (JStr (status_name st)))
  /\ (get_field "priority" o = None
      \/ exists p, get_field "priority" o = Some (JStr (priority_name p)))
  /\ (get_field "assignedTo" o = None
      \/ exists z, get_field "assignedTo" o = Some (JNum z) /\ 0 < z)
  /\ (get_field "dueDate" o = None
      \/ exists s, get_field "dueDate" o = Some (JStr s) /\ datetime_ok s = true).

(** Every filter parameter that [q] provides, [q'] provides with the
    same value. *)
Definition narrows (q q' : Query) : Prop :=
  (JS.truthy (q_status q) = true -> q_status q' = q_status q)
  /\ (JS.truthy (q_priority q) = true -> q_priority q' = q_priority q)
  /\ (JS.truthy (q_projectId q) = true -> q_projectId q' = q_projectId q)
  /\ (JS.truthy (q_assignedTo q) = true -> q_assignedTo q' = q_assignedTo q)
  /\ (JS.truthy (q_search q) = true -> q_search q' = q_search q).

(** The list in the answer of [GET /api/tasks]. *)
Definition listed (r : Response * Store) : list Task.t :=
  match payload (fst r) with
  | TaskListBody l _ => l
  | _ => []
  end.

(* ------------------------------------------------------------------ *)
(** ** Tables hold rows of their columns' types *)

Lemma rows_mkStore (l : list Task.t) (n : Z) :
  forallb Sql.row_ok l = true -> rows (mkStore l n) = l.
Proof. intros H. unfold mkStore. cbn [rows]. now apply forallb_filter_id. Qed.

Lemma in_mkStore (l : list Task.t) (n : Z) (t : Task.t) :
  In t (rows (mkStore l n)) -> In t l.
Proof. unfold mkStore. cbn [rows]. intros H. now apply filter_In in H. Qed.

Lemma Forall_mkStore (P : Task.t -> Prop) (l : list Task.t) (n : Z) :
  Forall P l -> Forall P (rows (mkStore l n)).
Proof.
  intros H. apply Forall_forall. intros t Ht. apply in_mkStore in Ht.
  rewrite Forall_forall in H. now apply H.
Qed.

Lemma row_in_table (db : Store) (t : Task.t) :
  In t (rows db) -> Sql.row_ok t = true.
Proof. intros H. exact (proj1 (forallb_forall _ _) (rows_typed db) t H). Qed.

Lemma id_in_table (db : Store) (t : Task.t) :
  In t (rows db) -> Sql.int4 (Task.id t) = true.
Proof.
  intros H. apply row_in_table in H. unfold Sql.row_ok in H.
  do 5 (apply andb_true_iff in H as [H _]). exact H.
Qed.

Lemma texts_in_table (db : Store) (t : Task.t) :
  In t (rows db) ->
  Sql.text_ok (Task.title t) = true
  /\ (forall s, Task.description t = Some s -> Sql.text_ok s = true).
Proof.
  intros H. apply row_in_table in H. unfold Sql.row_ok in H.
  do 3 (apply andb_true_iff in H as [H _]).
  apply andb_true_iff in H as [H Hd]. apply andb_true_iff in H as [_ Ht].
  split; [exact Ht|]. intros s Hs. now rewrite Hs in Hd.
Qed.

Lemma typed_kept (keep : Task.t -> bool) (l : list Task.t) :
  forallb Sql.row_ok l = true -> forallb Sql.row_ok (filter keep l) = true.
Proof.
  intros H. apply forallb_forall. intros t Ht. apply filter_In in Ht as [Ht _].
  exact (proj1 (forallb_forall _ _) H t Ht).
Qed.

Lemma rows_kept (keep : Task.t -> bool) (db : Store) (n : Z) :
  rows (mkStore (filter keep (rows db)) n) = filter keep (rows db).
Proof. apply rows_mkStore, typed_kept, rows_typed. Qed.

Lemma set_columns_typed (d : UpdateData) (t : Task.t) :
  settable d = true -> Sql.row_ok t = true -> Sql.row_ok (set_columns d t) = true.
Proof.
  unfold settable, Sql.row_ok, set_columns.
  cbn [Task.id Task.title Task.description Task.projectId Task.assignedTo
         Task.createdBy].
  intros Hs Ht.
  apply andb_true_iff in Hs as [Hs _].
  apply andb_true_iff in Hs as [Hs Ha].
  apply andb_true_iff in Hs as [Hti Hde].
  apply andb_true_iff in Ht as [Ht Hcb].
  apply andb_true_iff in Ht as [Ht Hat].
  apply andb_true_iff in Ht as [Ht Hpr].
  apply andb_true_iff in Ht as [Ht Hdt].
  apply andb_true_iff in Ht as [Hid Htt].
  rewrite Hid, Hpr, Hcb.
  replace (Sql.text_ok (or_else (s_title d) (Task.title t))) with true
    by (destruct (s_title d); cbn [or_else]; congruence).
  replace (match or_keep (s_description d) (Task.description t) with
           | Some s => Sql.text_ok s
           | None => true
           end) with true
    by (destruct (s_description d); cbn [or_keep]; congruence).
  replace (match or_keep (s_assignedTo d) (Task.assignedTo t) with
           | Some a => Sql.int4 a
           | None => true
           end) with true; [reflexivity|].
  destruct (s_assignedTo d); cbn [or_keep]; [|congruence].
  apply andb_true_iff in Ha as [Ha _]. congruence.
Qed.

Lemma run_update_typed (d : UpdateData) (w : option Sql.Cond)
  (table table' returned : list Task.t) :
  forallb Sql.row_ok table = true ->
  run_update d w table = Some (table', returned) ->
  forallb Sql.row_ok table' = true.
Proof.
  unfold run_update, update_where.
  destruct (settable d) eqn:Hs; [|discriminate].
  destruct (writable d); [|discriminate].
  intros Ht [= <- _]. apply forallb_forall. intros x Hx.
  apply in_map_iff in Hx as (t & <- & Hin).
  assert (Hok : Sql.row_ok t = true) by exact (proj1 (forallb_forall _ _) Ht t Hin).
  destruct (Sql.selects w t); [now apply set_columns_typed | exact Hok].
Qed.

Lemma rows_deleted (w : option Sql.Cond) (db : Store) (n : Z) :
  rows (mkStore (Sql.delete_where w (rows db)) n) = Sql.delete_where w (rows db).
Proof. apply rows_kept. Qed.

Lemma rows_set (d : UpdateData) (w : option Sql.Cond) (db : Store) (n : Z) :
  settable d = true ->
  rows (mkStore
          (map (fun t => if Sql.selects w t then set_columns d t else t) (rows db))
          n)
  = map (fun t => if Sql.selects w t then set_columns d t else t) (rows db).
Proof.
  intros Hs. apply rows_mkStore, forallb_forall. intros x Hx.
  apply in_map_iff in Hx as (t & <- & Hin).
  pose proof (row_in_table db t Hin) as Hok.
  destruct (Sql.selects w t); [now apply set_columns_typed | exact Hok].
Qed.

Lemma rows_updated (d : UpdateData) (w : option Sql.Cond) (db : Store)
  (table returned : list Task.t) (n : Z) :
  run_update d w (rows db) = Some (table, returned) ->
  rows (mkStore table n) = table.
Proof.
  intros H. apply rows_mkStore.
  exact (run_update_typed d w (rows db) table returned (rows_typed db) H).
Qed.

(* ------------------------------------------------------------------ *)
(** ** Lemmas on the primitives *)

Lemma append_nil_r (s : string) : s ++ "" = s.
Proof. induction s as [|c s IH]; simpl; [reflexivity | now rewrite IH]. Qed.

Lemma split_no_sep (sep : ascii) (s : string) :
  mentions sep s = false -> JS.split sep s = [s].
Proof.
  induction s as [|c s IH]; simpl; [reflexivity|].
  intros H. apply orb_false_iff in H as [Hc Hs].
  rewrite Hc, (IH Hs). reflexivity.
Qed.

Lemma split_head (sep : ascii) (a rest : string) :
  mentions sep a = false ->
  JS.split sep (a ++ String sep rest) = a :: JS.split sep rest.
Proof.
  induction a as [|c a IH]; simpl; intros H.
  - rewrite Ascii.eqb_refl. reflexivity.
  - apply orb_false_iff in H as [Hc Ha].
    rewrite Hc, (IH Ha). reflexivity.
Qed.

(** The first piece of [tk ++ rest] is [tk] when [tk] has no separator
    and [rest] is empty or begins with one. *)
Lemma split_first (sep : ascii) (tk rest : string) :
  mentions sep tk = false ->
  rest = "" \/ (exists r, rest = String sep r) ->
  exists l, JS.split sep (tk ++ rest) = tk :: l.
Proof.
  intros Htk [-> | [r ->]].
  - exists []. rewrite append_nil_r. apply split_no_sep; assumption.
  - exists (JS.split sep r). apply split_head; assumption.
Qed.

Lemma bearer_token_missing_header (req : Request) :
  authorization req = None -> bearer_token req = None.
Proof. unfold bearer_token. intros ->. reflexivity. Qed.

Lemma bearer_token_one_word (req : Request) (w : string) :
  authorization req = Some w -> mentions " " w = false ->
  JS.truthy (bearer_token req) = false.
Proof.
  unfold bearer_token. intros -> Hw. simpl.
  destruct (String.eqb_spec w "") as [-> | _]; [reflexivity|].
  rewrite (split_no_sep _ _ Hw). reflexivity.
Qed.

Lemma bearer_token_second_word (req : Request) (w tk rest : string) :
  authorization req = Some (w ++ " " ++ tk ++ rest) ->
  mentions " " w = false -> mentions " " tk = false ->
  rest = "" \/ (exists r, rest = String " " r) ->
  bearer_token req = Some tk.
Proof.
  unfold bearer_token. intros -> Hw Htk Hrest. simpl.
  destruct (split_first " " tk rest Htk Hrest) as [l Hl].
  assert (Hne : String.eqb (w ++ String " " (tk ++ rest)) "" = false)
    by (destruct w; reflexivity).
  rewrite Hne, (split_head _ _ _ Hw), Hl. reflexivity.
Qed.

Lemma authenticateToken_falsy_token (req : Request) :
  JS.truthy (bearer_token req) = false ->
  authenticateToken req = Respond (Unauthenticated "Access token required").
Proof.
  unfold authenticateToken. intros H.
  destruct (bearer_token req) as [tk|]; [|reflexivity].
  rewrite H. reflexivity.
Qed.

(* ------------------------------------------------------------------ *)
(** ** The credential verifier and the authorization gate *)

(** C4.  The credential verifier answers 401 (Unauthenticated) when
    the request carries no token: no Authorization header, a header of
    one word, or an empty second word.  Otherwise the token is the
    second word of the header; it answers 403 (InvalidToken) when
    [jwt.verify] rejects the token (malformed or tampered, expired, not
    yet valid), 500 (InternalError) when verification fails in any
    other way, and on success passes the request on with the identity
    [{id, role}] taken from the token's claims. *)
Theorem authenticateToken_outcomes (req : Request) :
  (authorization req = None ->
   authenticateToken req = Respond (Unauthenticated "Access token required"))
  /\ (forall w, authorization req = Some w -> mentions " " w = false ->
      authenticateToken req = Respond (Unauthenticated "Access token required"))
  /\ (forall w tk rest,
      authorization req = Some (w ++ " " ++ tk ++ rest) ->
      mentions " " w = false -> mentions " " tk = false ->
      rest = "" \/ (exists r, rest = String " " r) ->
      authenticateToken req =
        if String.eqb tk "" then Respond (Unauthenticated "Access token required")
        else match jwt_verify tk JWT_SECRET with
             | Decoded claims =>
                 Next (set_user req (User.mk (userId claims) (jwt_role claims)))
             | Throws OtherError =>
                 Respond (InternalError "Authentication error")
             | Throws _ =>
                 Respond (Forbidden "Invalid or expired token")
             end).
Proof.
  split; [|split].
  - intros H. apply authenticateToken_falsy_token.
    rewrite (bearer_token_missing_header req H). reflexivity.
  - intros w H Hw. apply authenticateToken_falsy_token.
    exact (bearer_token_one_word req w H Hw).
  - intros w tk rest H Hw Htk Hrest.
    unfold authenticateToken.
    rewrite (bearer_token_second_word req w tk rest H Hw Htk Hrest).
    simpl. destruct (String.eqb tk ""); simpl; [reflexivity|].
    destruct (jwt_verify tk JWT_SECRET) as [claims | []]; reflexivity.
Qed.

(** C8.  The authorization gate lets a request through exactly when an
    identity is attached and its role is [admin]; an identity with any
    other role is answered 403 (Forbidden), and a request without an
    identity 401 (Unauthenticated). *)
Theorem requireAdmin_outcomes (req : Request) :
  ((exists req', requireAdmin req = Next req')
   <-> (exists u, user req = Some u /\ User.role u = "admin"))
  /\ (forall u, user req = Some u -> User.role u <> "admin" ->
      requireAdmin req = Respond (Forbidden "Admin access required"))
  /\ (user req = None ->
      requireAdmin req = Respond (Unauthenticated "Authentication required")).
Proof.
  unfold requireAdmin. destruct (user req) as [u|].
  - destruct (String.eqb_spec (User.role u) "admin") as [Heq | Hne]; simpl.
    + split; [|split].
      * split; intros _; [exists u; auto | exists req; reflexivity].
      * intros u' [= <-] Hu. contradiction.
      * discriminate.
    + split; [|split].
      * split; [intros [req' H]; discriminate|].
        intros [u' [[= <-] Hu]]. contradiction.
      * reflexivity.
      * discriminate.
  - split; [|split].
    + split; [intros [req' H]; discriminate | intros [u [H _]]; discriminate].
    + intros u H. discriminate.
    + reflexivity.
Qed.

(* ------------------------------------------------------------------ *)
(** ** Lookup by id *)

Lemma selects_by_id (taskId : Z) (t : Task.t) :
  Sql.selects (by_id (JS.Int taskId)) t = (Task.id t =? taskId).
Proof. unfold Sql.selects, by_id. simpl. destruct (Task.id t =? taskId); reflexivity. Qed.

Lemma filter_none {A : Type} (f : A -> bool) (l : list A) :
  (forall x, In x l -> f x = false) -> filter f l = [].
Proof.
  induction l as [|a l IH]; simpl; intros H; [reflexivity|].
  rewrite (H a (or_introl eq_refl)). apply IH. intros x Hx. apply H. now right.
Qed.

Lemma filter_all {A : Type} (f : A -> bool) (l : list A) :
  (forall x, In x l -> f x = true) -> filter f l = l.
Proof.
  induction l as [|a l IH]; simpl; intros H; [reflexivity|].
  rewrite (H a (or_introl eq_refl)). f_equal. apply IH. intros x Hx. apply H. now right.
Qed.

Lemma select_absent (taskId : Z) (db : Store) :
  absent taskId db -> Sql.select_where (by_id (JS.Int taskId)) (rows db) = [].
Proof.
  intros H. apply filter_none. intros t Ht.
  rewrite selects_by_id. apply Z.eqb_neq. exact (H t Ht).
Qed.

(* ------------------------------------------------------------------ *)
(** ** Error paths of the routes on [/:id] *)

(** C9.  When [parseInt] of the [:id] parameter is [NaN], the handlers
    of GET, PUT and DELETE on [/api/tasks/:id] answer 400 with the
    error [Invalid task ID], whatever the body and the table are, and
    the table is left as it was. *)
Theorem invalid_id_is_400 (now : Z) (req : Request) (db : Store) :
  JS.parseInt (param_id req) = JS.NaN ->
  get_task req db = (InvalidTaskId, db)
  /\ put_task now req db = (InvalidTaskId, db)
  /\ delete_task req db = (InvalidTaskId, db).
Proof.
  intros H. unfold get_task, put_task, delete_task. rewrite H. auto.
Qed.

(** C10.  In PUT [/api/tasks/:id] the body is validated before the
    task is looked up: with a numeric id that no row has and a body
    the update schema rejects, the answer is 400 (ValidationError, with
    the schema's issues), not 404, and the table is left as it was. *)
Theorem put_validates_before_lookup
  (now : Z) (req : Request) (db : Store) (taskId : Z) (issues : list Issue) :
  JS.parseInt (param_id req) = JS.Int taskId ->
  absent taskId db ->
  updateTaskSchema (body req) = Zod.Invalid issues ->
  put_task now req db = (ValidationError issues, db)
  /\ fst (put_task now req db) <> NotFound.
Proof.
  intros Hid _ Hbody. unfold put_task. rewrite Hid, Hbody.
  split; [reflexivity | discriminate].
Qed.

Lemma post_task_code (now : Z) (req : Request) (db : Store) :
  code (fst (post_task now req db)) = 400
  \/ code (fst (post_task now req db)) = 500
  \/ code (fst (post_task now req db)) = 201.
Proof.
  unfold post_task. destruct (createTaskSchema (body req)); [|auto].
  destruct (user req); [|simpl; auto].
  destruct (insert_returning _ _ _) as [[task|] db']; simpl; auto.
Qed.

Lemma run_select_by_id (taskId : Z) (table : list Task.t) :
  Sql.run_select (by_id (JS.Int taskId)) table
  = if Sql.int4 taskId
    then Some (Sql.select_where (by_id (JS.Int taskId)) table)
    else None.
Proof. reflexivity. Qed.

(** C5 (amended).  For a numeric id that no row has and that fits the
    id column (32 bits), GET and DELETE on [/api/tasks/:id] answer 404
    (NotFound), and so does PUT when its body satisfies the update
    schema; for an id outside 32 bits the lookup raises and they
    answer 500.  A PUT whose body does not satisfy the schema is
    answered 400 (ValidationError) whatever the id.  In each case the
    table is left as it was, so repeating the call gives the same
    answer.  POST [/api/tasks] never answers 404. *)
Theorem absent_id_outcomes (now : Z) (req : Request) (db : Store) (taskId : Z) :
  JS.parseInt (param_id req) = JS.Int taskId ->
  absent taskId db ->
  (Sql.int4 taskId = true ->
   get_task req db = (NotFound, db)
   /\ delete_task req db = (NotFound, db)
   /\ (forall validatedData, updateTaskSchema (body req) = Zod.Valid validatedData ->
       put_task now req db = (NotFound, db)))
  /\ (Sql.int4 taskId = false ->
      get_task req db = (InternalError "Failed to fetch task", db)
      /\ delete_task req db = (InternalError "Failed to delete task", db)
      /\ (forall validatedData, updateTaskSchema (body req) = Zod.Valid validatedData ->
          put_task now req db = (InternalError "Failed to update task", db)))
  /\ (forall issues, updateTaskSchema (body req) = Zod.Invalid issues ->
      put_task now req db = (ValidationError issues, db))
  /\ snd (put_task now req db) = db
  /\ (forall now' req' db', code (fst (post_task now' req' db')) <> 404).
Proof.
  intros Hid Habs. unfold get_task, delete_task, put_task.
  rewrite Hid, run_select_by_id, (select_absent taskId db Habs).
  simpl JS.isNaN. cbv iota.
  split; [|split; [|split; [|split]]].
  - intros ->. simpl. repeat split. intros d ->. reflexivity.
  - intros ->. repeat split. intros d ->. reflexivity.
  - intros issues ->. reflexivity.
  - destruct (updateTaskSchema (body req)); [|reflexivity].
    destruct (Sql.int4 taskId); reflexivity.
  - intros now' req' db'.
    destruct (post_task_code now' req' db') as [H | [H | H]]; rewrite H; discriminate.
Qed.

(* ------------------------------------------------------------------ *)
(** ** The creator of a task *)

Lemma update_where_keeps_creator (d : UpdateData) (w : option Sql.Cond)
  (table table' returned : list Task.t) :
  update_where d w table = Some (table', returned) ->
  map id_and_creator table' = map id_and_creator table.
Proof.
  unfold update_where. destruct (writable d); [|discriminate].
  intros [= <- _]. rewrite map_map. apply map_ext. intros t.
  destruct (Sql.selects w t); reflexivity.
Qed.

Lemma run_update_some (d : UpdateData) (w : option Sql.Cond)
  (table : list Task.t) (r : list Task.t * list Task.t) :
  run_update d w table = Some r -> update_where d w table = Some r.
Proof. unfold run_update. destruct (settable d); [auto | discriminate]. Qed.

(** C7.  No update changes who created a task: whatever the request
    (its body may name [createdBy]), the rows after PUT
    [/api/tasks/:id] are, in the same order, rows with the ids and the
    creators they had before. *)
Theorem put_keeps_createdBy (now : Z) (req : Request) (db : Store) :
  map id_and_creator (rows (snd (put_task now req db)))
  = map id_and_creator (rows db).
Proof.
  unfold put_task.
  destruct (JS.parseInt (param_id req)) as [|taskId]; [reflexivity|].
  cbn [JS.isNaN].
  destruct (updateTaskSchema (body req)) as [d|issues]; [|reflexivity].
  destruct (Sql.run_select (by_id (JS.Int taskId)) (rows db)) as [selected|];
    [|reflexivity].
  destruct (Sql.limit 1 selected); [reflexivity|].
  destruct (run_update (updateData now d) (by_id (JS.Int taskId)) (rows db))
    as [[table returned]|] eqn:Hupd; [|reflexivity].
  assert (Hrows : rows (mkStore table (next_id db)) = table)
    by exact (rows_updated _ _ db table returned _ Hupd).
  apply run_update_some, update_where_keeps_creator in Hupd.
  destruct returned; cbn [snd]; rewrite Hrows; exact Hupd.
Qed.

(* ------------------------------------------------------------------ *)
(** ** Reading a parsed payload back *)

Lemma ap_valid {A B : Type} (f : Zod.Parsed (A -> B)) (x : Zod.Parsed A) (b : B) :
  f <*> x = Zod.Valid b ->
  exists g a, f = Zod.Valid g /\ x = Zod.Valid a /\ b = g a.
Proof.
  destruct f as [g|e], x as [a|e']; simpl; intros H; try discriminate.
  injection H as <-. exists g, a. auto.
Qed.

(** Takes an accepted object apart, key by key. *)
Ltac split_ap H :=
  repeat match type of H with
         | (_ <*> _) = Zod.Valid _ =>
             let g := fresh "g" in
             let a := fresh "a" in
             let Hx := fresh "Hfield" in
             apply ap_valid in H; destruct H as (g & a & H & Hx & ->)
         end;
  injection H as <-.

Lemma field_valid {A : Type} (o : list (string * json)) (key : string)
  (p : Zod.Schema A) (a : A) :
  Zod.field o key p = Zod.Valid a -> p (get_field key o) = Zod.Ok a.
Proof.
  unfold Zod.field. destruct (p (get_field key o)); intros H; [|discriminate].
  injection H as <-. reflexivity.
Qed.

Lemma optional_valid {A : Type} (p : Zod.Schema A) (v : option json) (a : option A) :
  Zod.optional p v = Zod.Ok a ->
  (v = None /\ a = None)
  \/ (exists j x, v = Some j /\ p (Some j) = Zod.Ok x /\ a = Some x).
Proof.
  unfold Zod.optional. destruct v as [j|].
  - destruct (p (Some j)) as [x|k] eqn:Hp; simpl; intros [= <-].
    right. exists j, x. auto.
  - intros [= <-]. left. auto.
Qed.

Lemma string_valid (j : json) (s : string) :
  Zod.string_ (Some j) = Zod.Ok s -> j = JStr s.
Proof. destruct j; simpl; intros H; try discriminate. now injection H as <-. Qed.

Lemma min_valid (n : nat) (j : json) (s : string) :
  Zod.min n Zod.string_ (Some j) = Zod.Ok s -> j = JStr s.
Proof.
  unfold Zod.min. destruct (Zod.string_ (Some j)) as [x|] eqn:Hx; [|discriminate].
  destruct (Nat.leb n (String.length x)); intros [= <-].
  now apply string_valid.
Qed.

Lemma datetime_valid (j : json) (s : string) :
  Zod.datetime datetime_ok Zod.string_ (Some j) = Zod.Ok s ->
  j = JStr s /\ datetime_ok s = true.
Proof.
  unfold Zod.datetime. destruct (Zod.string_ (Some j)) as [x|] eqn:Hx; [|discriminate].
  destruct (datetime_ok x) eqn:Hok; intros [= <-].
  split; [now apply string_valid | assumption].
Qed.

Lemma enum_valid {A : Type} (values : list (string * A)) (j : json) (a : A) :
  Zod.enum values (Some j) = Zod.Ok a ->
  exists s, j = JStr s /\ Zod.assoc s values = Some a.
Proof.
  destruct j as [| | | |s| |]; simpl; intros H; try discriminate.
  exists s. split; [reflexivity|].
  destruct (Zod.assoc s values); [now injection H as <- | discriminate].
Qed.

Lemma positive_int_valid (j : json) (z : Z) :
  Zod.positive (Zod.int Zod.number) (Some j) = Zod.Ok z -> j = JNum z /\ 0 < z.
Proof.
  unfold Zod.positive, Zod.int, Zod.number.
  destruct j as [| |z0|[|]| | |]; simpl; try discriminate.
  destruct (0 <? z0) eqn:Hpos; intros [= <-].
  split; [reflexivity | now apply Z.ltb_lt].
Qed.

(* ------------------------------------------------------------------ *)
(** ** Creating a task *)

Lemma insert_returning_cases (now : Z) (v : NewTask) (db : Store) :
  (insert_returning now v db
   = (Some (new_row now v (next_id db)),
      mkStore (rows db ++ [new_row now v (next_id db)]) (next_id db + 1))
   /\ bindable v = true /\ Sql.int4 (next_id db) = true /\ referenced v = true)
  \/ (exists db',
        insert_returning now v db = (None, db')
        /\ rows db' = rows db
        /\ (next_id db' = next_id db \/ next_id db' = next_id db + 1)
        /\ (bindable v && Sql.int4 (next_id db) && referenced v = false)).
Proof.
  unfold insert_returning.
  destruct (bindable v); cbn [negb andb]; [|right; exists db; auto].
  destruct (Sql.int4 (next_id db)); cbn [negb andb]; [|right; exists db; auto].
  destruct (referenced v); cbn [negb andb].
  - left. auto.
  - right. eexists. split; [reflexivity|].
    split; [apply rows_mkStore, rows_typed|].
    split; [right; reflexivity | reflexivity].
Qed.

Lemma new_row_typed (now : Z) (v : NewTask) (id : Z) :
  bindable v = true -> Sql.int4 id = true -> Sql.row_ok (new_row now v id) = true.
Proof.
  unfold bindable, Sql.row_ok, new_row.
  cbn [Task.id Task.title Task.description Task.projectId Task.assignedTo
         Task.createdBy].
  intros Hb ->.
  apply andb_true_iff in Hb as [Hb _].
  apply andb_true_iff in Hb as [Hb ->].
  apply andb_true_iff in Hb as [Hb ->].
  apply andb_true_iff in Hb as [Hb ->].
  apply andb_true_iff in Hb as [-> ->].
  reflexivity.
Qed.

Lemma rows_appended (db : Store) (t : Task.t) (n : Z) :
  Sql.row_ok t = true -> rows (mkStore (rows db ++ [t]) n) = (rows db ++ [t])%list.
Proof.
  intros H. apply rows_mkStore. rewrite forallb_app, (rows_typed db).
  cbn [forallb]. now rewrite H.
Qed.




(* ------------------------------------------------------------------ *)
(** ** Updating a task *)

Section Update.

(** Every version of zod's date-time expression begins with a year. *)
Hypothesis datetime_nonempty : datetime_ok "" = false.

Variables (o : list (string * json)) (validatedData : UpdateTask).
Hypothesis accepted : updateTaskSchema (JObj o) = Zod.Valid validatedData.

Lemma accepted_fields :
  Zod.optional (Zod.min 1 Zod.string_) (get_field "title" o)
    = Zod.Ok (u_title validatedData)
  /\ Zod.optional Zod.string_ (get_field "description" o)
    = Zod.Ok (u_description validatedData)
  /\ Zod.optional (Zod.enum statuses) (get_field "status" o)
    = Zod.Ok (u_status validatedData)
  /\ Zod.optional (Zod.enum priorities) (get_field "priority" o)
    = Zod.Ok (u_priority validatedData)
  /\ Zod.optional (Zod.positive (Zod.int Zod.number)) (get_field "assignedTo" o)
    = Zod.Ok (u_assignedTo validatedData)
  /\ Zod.optional (Zod.datetime datetime_ok Zod.string_) (get_field "dueDate" o)
    = Zod.Ok (u_dueDate validatedData).
Proof.
  pose proof accepted as H. unfold updateTaskSchema in H. split_ap H. simpl.
  repeat match goal with
         | Hf : Zod.field _ _ _ = _ |- _ => apply field_valid in Hf
         end.
  repeat split; assumption.
Qed.

(** Whether the update statement runs is what [update_accepted] says
    of the validated data. *)
Lemma updateData_accepted (now : Z) :
  settable (updateData now validatedData) && writable (updateData now validatedData)
  = update_accepted validatedData.
Proof.
  destruct accepted_fields as (_ & _ & _ & _ & _ & Hd).
  unfold settable, writable, update_accepted, updateData.
  cbn [s_title s_description s_assignedTo s_dueDate].
  destruct (match u_title validatedData with
            | Some s => Sql.text_ok s
            | None => true
            end && match u_description validatedData with
                   | Some s => Sql.text_ok s
                   | None => true
                   end); cbn [andb]; [|reflexivity].
  apply optional_valid in Hd as [[_ ->] | (j & s & _ & Hs & ->)].
  - destruct (u_assignedTo validatedData) as [a|];
      [destruct (Sql.int4 a && user_exists a)|]; reflexivity.
  - apply datetime_valid in Hs as [_ Hok].
    assert (Hne : String.eqb s "" = false).
    { destruct (String.eqb_spec s "") as [-> | _]; [congruence | reflexivity]. }
    cbn [JS.truthy]. rewrite Hne. cbn [negb].
    destruct (u_assignedTo validatedData) as [a|];
      [destruct (Sql.int4 a && user_exists a)|];
      destruct (Date_parse s) as [|ms]; cbn [andb];
      try destruct (timestamp_ok ms); reflexivity.
Qed.

Lemma run_update_accepted (now : Z) (w : option Sql.Cond) (table : list Task.t) :
  run_update (updateData now validatedData) w table
  = if update_accepted validatedData
    then Some (map (fun t => if Sql.selects w t
                             then set_columns (updateData now validatedData) t
                             else t) table,
               map (set_columns (updateData now validatedData))
                 (Sql.select_where w table))
    else None.
Proof.
  rewrite <- (updateData_accepted now). unfold run_update, update_where.
  destruct (settable (updateData now validatedData));
    destruct (writable (updateData now validatedData)); reflexivity.
Qed.

(** The columns the handler writes are the ones the specification
    names. *)
Lemma set_columns_merged (now : Z) (t : Task.t) :
  set_columns (updateData now validatedData) t = merged o now t.
Proof.
  destruct accepted_fields as (Ht & Hde & Hs & Hp & Ha & Hd).
  unfold set_columns, merged, updateData. cbn -[Zod.assoc get_field]. f_equal.
  - apply optional_valid in Ht as [[-> ->] | (j & s & -> & Hj & ->)]; [reflexivity|].
    apply min_valid in Hj as ->. reflexivity.
  - apply optional_valid in Hde as [[-> ->] | (j & s & -> & Hj & ->)]; [reflexivity|].
    apply string_valid in Hj as ->. reflexivity.
  - apply optional_valid in Hs as [[-> ->] | (j & s & -> & Hj & ->)]; [reflexivity|].
    apply enum_valid in Hj as (n & -> & ->). reflexivity.
  - apply optional_valid in Hp as [[-> ->] | (j & s & -> & Hj & ->)]; [reflexivity|].
    apply enum_valid in Hj as (n & -> & ->). reflexivity.
  - apply optional_valid in Ha as [[-> ->] | (j & s & -> & Hj & ->)]; [reflexivity|].
    apply positive_int_valid in Hj as [-> _]. reflexivity.
  - apply optional_valid in Hd as [[-> ->] | (j & s & -> & Hj & ->)]; [reflexivity|].
    apply datetime_valid in Hj as [-> Hok]. simpl.
    destruct (String.eqb_spec s "") as [-> | _]; [congruence | reflexivity].
Qed.

End Update.

Lemma select_first (taskId : Z) (pre post : list Task.t) (t : Task.t) :
  (forall r, In r pre -> Task.id r <> taskId) ->
  Task.id t = taskId ->
  exists l, Sql.select_where (by_id (JS.Int taskId)) (pre ++ t :: post) = t :: l.
Proof.
  intros Hpre Ht. unfold Sql.select_where. rewrite filter_app.
  rewrite (filter_none _ pre).
  - cbn [app filter]. rewrite selects_by_id, Ht, Z.eqb_refl. eauto.
  - intros r Hr. rewrite selects_by_id. apply Z.eqb_neq. auto.
Qed.

Lemma map_only (taskId : Z) (f : Task.t -> Task.t) (l : list Task.t) :
  (forall r, In r l -> Task.id r <> taskId) ->
  map (fun r => if Sql.selects (by_id (JS.Int taskId)) r then f r else r) l = l.
Proof.
  intros H. rewrite <- (map_id l) at 2. apply map_ext_in. intros r Hr.
  rewrite selects_by_id. apply H, Z.eqb_neq in Hr. now rewrite Hr.
Qed.

(** C6 (amended).  For a task that exists and a body the update schema
    accepts, PUT [/api/tasks/:id] writes when the database takes the
    values (a title and a description without NUL, an assignee that is
    a user and fits in 32 bits, a due date that is a valid date in the
    range of the column): it then answers
    200 with the task as [merged] describes it, each field of the
    update schema that the body carries overwritten with the body's
    value, [updatedAt] the current time, every other field kept, the
    other rows untouched.  When the database refuses the values it
    answers 500 and the table is as it was.  The empty object is
    accepted by the schema and by the database, and changes
    [updatedAt] only. *)
Theorem put_overwrites_present_fields
  (now : Z) (req : Request) (db : Store) (taskId : Z)
  (o : list (string * json)) (validatedData : UpdateTask)
  (pre post : list Task.t) (t : Task.t) :
  datetime_ok "" = false ->
  JS.parseInt (param_id req) = JS.Int taskId ->
  body req = JObj o ->
  updateTaskSchema (JObj o) = Zod.Valid validatedData ->
  rows db = (pre ++ t :: post)%list ->
  Task.id t = taskId ->
  (forall r, In r (pre ++ post)%list -> Task.id r <> taskId) ->
  (update_accepted validatedData = true ->
   put_task now req db
   = (res_json (MessageTaskBody "Task updated successfully" (merged o now t)),
      mkStore (pre ++ merged o now t :: post)%list (next_id db)))
  /\ (update_accepted validatedData = false ->
      put_task now req db = (InternalError "Failed to update task", db))
  /\ (updateTaskSchema (JObj [])
      = Zod.Valid (mkUpdateTask None None None None None None)
      /\ update_accepted (mkUpdateTask None None None None None None) = true)
  /\ (o = [] ->
      merged o now t
      = Task.mk (Task.id t) (Task.title t) (Task.description t) (Task.status t)
          (Task.priority t) (Task.projectId t) (Task.assignedTo t)
          (Task.createdBy t) (Task.dueDate t) (Task.createdAt t) now).
Proof.
  intros Hne Hid Hb Hv Hrows Ht Hothers.
  assert (Hint : Sql.int4 taskId = true).
  { rewrite <- Ht. apply (id_in_table db). rewrite Hrows.
    apply in_or_app. right. now left. }
  assert (Hpre : forall r, In r pre -> Task.id r <> taskId)
    by (intros r Hr; apply Hothers, in_or_app; now left).
  assert (Hpost : forall r, In r post -> Task.id r <> taskId)
    by (intros r Hr; apply Hothers, in_or_app; now right).
  destruct (select_first taskId pre post t Hpre Ht) as [l Hl].
  assert (Hput : put_task now req db
                 = if update_accepted validatedData
                   then (res_json (MessageTaskBody "Task updated successfully"
                                     (merged o now t)),
                         mkStore (pre ++ merged o now t :: post)%list (next_id db))
                   else (InternalError "Failed to update task", db)).
  { unfold put_task. rewrite Hid, Hb, Hv, Hrows, run_select_by_id, Hint, Hl.
    simpl JS.isNaN. cbv iota. cbn [Sql.limit firstn].
    rewrite (run_update_accepted Hne o validatedData Hv now).
    destruct (update_accepted validatedData); [|reflexivity].
    rewrite Hl. cbn [map].
    rewrite (set_columns_merged Hne o validatedData Hv now t).
    rewrite map_app. cbn [map].
    rewrite (map_only taskId _ pre Hpre), (map_only taskId _ post Hpost).
    rewrite selects_by_id, Ht, Z.eqb_refl.
    rewrite (set_columns_merged Hne o validatedData Hv now t).
    reflexivity. }
  split; [|split; [|split]].
  - intros Hacc. rewrite Hput, Hacc. reflexivity.
  - intros Hacc. rewrite Hput, Hacc. reflexivity.
  - split; reflexivity.
  - intros ->. reflexivity.
Qed.

(* ------------------------------------------------------------------ *)
(** ** Listing tasks: order and count *)

Lemma insert_desc_perm (t : Task.t) (l : list Task.t) :
  Permutation (Sql.insert_desc t l) (t :: l).
Proof.
  induction l as [|h r IH]; simpl; [reflexivity|].
  destruct (Task.createdAt h <=? Task.createdAt t); [reflexivity|].
  rewrite IH. apply perm_swap.
Qed.

Lemma orderBy_perm (l : list Task.t) :
  Permutation (Sql.orderBy_desc_createdAt l) l.
Proof.
  induction l as [|t l IH]; simpl; [reflexivity|].
  rewrite insert_desc_perm. now constructor.
Qed.

Lemma insert_desc_sorted (t : Task.t) (l : list Task.t) :
  StronglySorted newer_first l -> StronglySorted newer_first (Sql.insert_desc t l).
Proof.
  induction 1 as [|h r Hr IH Hh]; simpl.
  - constructor; constructor.
  - destruct (Task.createdAt h <=? Task.createdAt t) eqn:Hle.
    + apply Z.leb_le in Hle. constructor.
      * now constructor.
      * constructor; [exact Hle|].
        eapply Forall_impl; [|exact Hh]. unfold newer_first. intros x Hx. lia.
    + apply Z.leb_gt in Hle. constructor; [exact IH|].
      eapply Permutation_Forall; [symmetry; apply insert_desc_perm|].
      constructor; [unfold newer_first; lia | exact Hh].
Qed.

Lemma orderBy_sorted (l : list Task.t) :
  StronglySorted newer_first (Sql.orderBy_desc_createdAt l).
Proof.
  induction l as [|t l IH]; simpl; [constructor|].
  now apply insert_desc_sorted.
Qed.

Lemma push_if_falsy (v : option string) (c : string -> Sql.Cond) :
  JS.truthy v = false -> push_if v c = [].
Proof. unfold push_if. destruct v; [intros ->|]; reflexivity. Qed.

Lemma no_filter_where (q : Query) : no_filter q -> where_clause q = None.
Proof.
  intros (H1 & H2 & H3 & H4 & H5). unfold where_clause, conditions.
  now rewrite !push_if_falsy.
Qed.

Lemma accepted_push_if (v : option string) (c : string -> Sql.Cond)
  (ok : string -> bool) :
  (forall s, Sql.accepted (c s) = ok s) ->
  forallb Sql.accepted (push_if v c) = typed v ok.
Proof.
  intros Hc. unfold push_if, typed, JS.truthy. destruct v as [s|]; [|reflexivity].
  destruct (String.eqb s ""); cbn [negb forallb]; [reflexivity|].
  now rewrite Hc, andb_true_r.
Qed.

Lemma mentions_append (c : ascii) (a b : string) :
  mentions c (a ++ b) = mentions c a || mentions c b.
Proof.
  induction a as [|x a IH]; [reflexivity|].
  cbn [append mentions]. now rewrite IH, orb_assoc.
Qed.

Lemma text_ok_append (a b : string) :
  Sql.text_ok (a ++ b) = Sql.text_ok a && Sql.text_ok b.
Proof. unfold Sql.text_ok. now rewrite mentions_append, negb_orb. Qed.

Lemma text_ok_pattern (s : string) : Sql.text_ok ("%" ++ s ++ "%") = Sql.text_ok s.
Proof.
  rewrite !text_ok_append.
  change (Sql.text_ok "%") with true. now rewrite andb_true_r.
Qed.

Lemma accepted_conditions (q : Query) :
  forallb Sql.accepted (conditions q) = typed_filters q.
Proof.
  unfold conditions, typed_filters. rewrite !forallb_app.
  rewrite (accepted_push_if (q_status q) _ Sql.is_status) by reflexivity.
  rewrite (accepted_push_if (q_priority q) _ Sql.is_priority) by reflexivity.
  rewrite (accepted_push_if (q_projectId q) _ is_int4)
    by (intros s; unfold is_int4; cbn [Sql.accepted];
        destruct (JS.parseInt s); reflexivity).
  rewrite (accepted_push_if (q_assignedTo q) _ is_int4)
    by (intros s; unfold is_int4; cbn [Sql.accepted];
        destruct (JS.parseInt s); reflexivity).
  rewrite (accepted_push_if (q_search q) _ Sql.text_ok)
    by (intros s; cbn [Sql.accepted forallb];
        now rewrite text_ok_pattern, andb_true_r, andb_diag).
  rewrite !andb_assoc. reflexivity.
Qed.

Lemma run_select_where (q : Query) (table : list Task.t) :
  Sql.run_select (where_clause q) table
  = if typed_filters q then Some (Sql.select_where (where_clause q) table)
    else None.
Proof.
  rewrite <- accepted_conditions. unfold where_clause.
  destruct (conditions q) as [|c cs]; reflexivity.
Qed.

Lemma typed_falsy (v : option string) (ok : string -> bool) :
  JS.truthy v = false -> typed v ok = true.
Proof.
  unfold JS.truthy, typed. destruct v as [s|]; [|reflexivity].
  destruct (String.eqb s ""); [reflexivity | discriminate].
Qed.

Lemma no_filter_typed (q : Query) : no_filter q -> typed_filters q = true.
Proof.
  intros (H1 & H2 & H3 & H4 & H5). unfold typed_filters.
  now rewrite !typed_falsy.
Qed.

(** C3.  GET [/api/tasks] without filter parameters answers with
    every row of the table.  Whatever the parameters, the list it
    answers with, whenever it answers with one, holds the selected
    rows (each as often as the table has it), newest [createdAt]
    first, and the count is the length of the list.  It answers with
    a list exactly when each provided parameter is a value of its
    column's type; otherwise the statement raises and the answer is
    500.  The table is never changed. *)
Theorem get_tasks_ordered_and_counted (req : Request) (db : Store) :
  (forall taskList count,
     payload (fst (get_tasks req db)) = TaskListBody taskList count ->
     StronglySorted newer_first taskList
     /\ count = List.length taskList
     /\ Permutation taskList
          (Sql.select_where (where_clause (query req)) (rows db)))
  /\ (no_filter (query req) ->
      exists taskList,
        get_tasks req db = (res_json (TaskListBody taskList (List.length taskList)), db)
        /\ StronglySorted newer_first taskList
        /\ Permutation taskList (rows db))
  /\ (typed_filters (query req) = true ->
      exists taskList,
        get_tasks req db = (res_json (TaskListBody taskList (List.length taskList)), db))
  /\ (typed_filters (query req) = false ->
      get_tasks req db = (InternalError "Failed to fetch tasks", db))
  /\ snd (get_tasks req db) = db.
Proof.
  unfold get_tasks. rewrite run_select_where. split; [|split; [|split; [|split]]].
  - intros taskList count. destruct (typed_filters (query req)); [|discriminate].
    cbn [fst payload res_json]. intros [= <- <-].
    split; [apply orderBy_sorted|]. split; [reflexivity | apply orderBy_perm].
  - intros H. rewrite (no_filter_typed _ H).
    eexists. split; [reflexivity|]. split; [apply orderBy_sorted|].
    rewrite orderBy_perm, (no_filter_where _ H).
    unfold Sql.select_where. now rewrite filter_all.
  - intros ->. eexists. reflexivity.
  - intros ->. reflexivity.
  - destruct (typed_filters (query req)); reflexivity.
Qed.

(* ------------------------------------------------------------------ *)
(** ** Listing tasks: the filter *)

Lemma and3_true (a b : option bool) :
  Sql.and3 a b = Some true <-> a = Some true /\ b = Some true.
Proof.
  destruct a as [[]|], b as [[]|]; simpl; split;
    solve [auto | intros [? ?]; discriminate | discriminate].
Qed.

Lemma or3_true (a b : option bool) :
  Sql.or3 a b = Some true <-> a = Some true \/ b = Some true.
Proof.
  destruct a as [[]|], b as [[]|]; simpl; split;
    solve [auto | intros [? | ?]; discriminate | discriminate].
Qed.

Lemma and_true (cs : list Sql.Cond) (t : Task.t) :
  Sql.eval (Sql.and_ cs) t = Some true
  <-> Forall (fun c => Sql.eval c t = Some true) cs.
Proof.
  simpl. induction cs as [|c cs IH]; simpl.
  - split; [constructor | reflexivity].
  - rewrite and3_true, IH. split.
    + intros [? ?]. now constructor.
    + intros H. inversion H; subst. auto.
Qed.

Lemma selects_where_clause (q : Query) (t : Task.t) :
  Sql.selects (where_clause q) t = true
  <-> Forall (fun c => Sql.eval c t = Some true) (conditions q).
Proof.
  unfold where_clause. destruct (conditions q) as [|c cs].
  - simpl. split; [constructor | reflexivity].
  - rewrite <- and_true. unfold Sql.selects.
    destruct (Sql.eval (Sql.and_ (c :: cs)) t) as [[]|];
      split; intros H; try reflexivity; discriminate.
Qed.

Lemma Forall_push_if (P : Sql.Cond -> Prop) (v : option string)
  (c : string -> Sql.Cond) :
  Forall P (push_if v c) <-> (forall s, provided v s -> P (c s)).
Proof.
  unfold push_if, provided. destruct v as [x|]; simpl.
  - destruct (String.eqb_spec x "") as [-> | Hx]; simpl.
    + split; [|constructor]. intros _ s [[= <-] Hs]. contradiction.
    + split.
      * intros H s [[= <-] _]. now inversion H.
      * intros H. constructor; [apply H; auto | constructor].
  - split; [|constructor]. intros _ s [H _]. discriminate.
Qed.

Lemma eq_status_true (s : string) (t : Task.t) :
  Sql.eval (Sql.eq_ Sql.col_status (Sql.VText s)) t = Some true
  <-> status_name (Task.status t) = s.
Proof.
  simpl. destruct (String.eqb_spec (status_name (Task.status t)) s);
    split; intros H; congruence.
Qed.

Lemma eq_priority_true (s : string) (t : Task.t) :
  Sql.eval (Sql.eq_ Sql.col_priority (Sql.VText s)) t = Some true
  <-> priority_name (Task.priority t) = s.
Proof.
  simpl. destruct (String.eqb_spec (priority_name (Task.priority t)) s);
    split; intros H; congruence.
Qed.

Lemma eq_projectId_true (s : string) (t : Task.t) :
  Sql.eval (Sql.eq_ Sql.col_projectId (Sql.of_number (JS.parseInt s))) t = Some true
  <-> JS.parseInt s = JS.Int (Task.projectId t).
Proof.
  simpl. destruct (JS.parseInt s) as [|z]; simpl.
  - split; discriminate.
  - destruct (Z.eqb_spec (Task.projectId t) z); split; intros H; congruence.
Qed.

Lemma eq_assignedTo_true (s : string) (t : Task.t) :
  Sql.eval (Sql.eq_ Sql.col_assignedTo (Sql.of_number (JS.parseInt s))) t = Some true
  <-> exists a, Task.assignedTo t = Some a /\ JS.parseInt s = JS.Int a.
Proof.
  simpl. destruct (Task.assignedTo t) as [a|]; simpl.
  - destruct (JS.parseInt s) as [|z]; simpl.
    + split; [discriminate | intros (a' & _ & H); discriminate].
    + destruct (Z.eqb_spec a z) as [-> | Hne]; split.
      * intros _. eauto.
      * reflexivity.
      * discriminate.
      * intros (a' & [= <-] & [= <-]). contradiction.
  - destruct (JS.parseInt s); split;
      solve [discriminate | intros (a & H & _); discriminate].
Qed.

Lemma search_true (p : string) (t : Task.t) :
  Sql.eval (Sql.or_ [Sql.like_ Sql.col_title p; Sql.like_ Sql.col_description p]) t
    = Some true
  <-> Sql.like (Task.title t) p = true
      \/ (exists d, Task.description t = Some d /\ Sql.like d p = true).
Proof.
  cbn [Sql.eval fold_right]. rewrite !or3_true. cbn [Sql.column_value].
  destruct (Task.description t) as [d|]; simpl; split.
  - intros [[= H] | [[= H] | H]]; [auto | eauto | discriminate].
  - intros [-> | (d' & [= <-] & ->)]; auto.
  - intros [[= H] | [H | H]]; [auto | discriminate | discriminate].
  - intros [-> | (d' & H & _)]; [auto | discriminate].
Qed.

(** *** [LIKE '%s%'] and substrings *)

Lemma plain_cons (c : ascii) (s : string) :
  plain (String c s) = true ->
  Ascii.eqb c "%" = false /\ Ascii.eqb c "_" = false
  /\ Ascii.eqb c "\" = false /\ plain s = true.
Proof.
  unfold plain. simpl.
  rewrite !andb_true_iff, !negb_true_iff, !orb_false_iff.
  intros [[[H1 H1'] [H2 H2']] [H3 H3']].
  repeat split; assumption.
Qed.

Lemma tokens_plain (s rest : string) :
  plain s = true -> Sql.tokens (s ++ rest) = (lits s ++ Sql.tokens rest)%list.
Proof.
  induction s as [|c s IH]; intros H; [reflexivity|].
  apply plain_cons in H as (H1 & H2 & H3 & Hs).
  simpl. rewrite H1, H2, H3, (IH Hs). reflexivity.
Qed.

Lemma matches_run (p : list Sql.Token) (x : string) :
  Sql.matches (Sql.AnyRun :: p) x
  = Sql.matches p x
    || match x with
       | String _ x' => Sql.matches (Sql.AnyRun :: p) x'
       | EmptyString => false
       end.
Proof. destruct x; reflexivity. Qed.

Lemma matches_any (x : string) : Sql.matches [Sql.AnyRun] x = true.
Proof.
  induction x as [|c x IH]; [reflexivity|].
  rewrite matches_run, IH. apply orb_true_r.
Qed.

Lemma matches_lits_run (s x : string) :
  Sql.matches (lits s ++ [Sql.AnyRun]) x = JS.startsWith x s.
Proof.
  revert x. induction s as [|c s IH]; intros x.
  - simpl lits. simpl app. rewrite matches_any. reflexivity.
  - destruct x as [|c' x]; [reflexivity|].
    simpl. rewrite IH, Ascii.eqb_sym. reflexivity.
Qed.

Lemma like_includes (s x : string) :
  plain s = true -> Sql.like x ("%" ++ s ++ "%") = JS.includes x s.
Proof.
  intros H. unfold Sql.like.
  change ("%" ++ s ++ "%") with (String "%" (s ++ "%")).
  change (Sql.tokens (String "%" (s ++ "%")))
    with (Sql.AnyRun :: Sql.tokens (s ++ "%")).
  rewrite (tokens_plain s "%" H).
  change (Sql.tokens "%") with [Sql.AnyRun].
  induction x as [|c x IH].
  - rewrite matches_run, matches_lits_run. simpl. now rewrite orb_false_r.
  - rewrite matches_run, matches_lits_run, IH. reflexivity.
Qed.

Lemma startsWith_spec (x s : string) :
  JS.startsWith x s = true <-> exists b, x = s ++ b.
Proof.
  revert x. induction s as [|c s IH]; intros x; simpl.
  - split; [intros _; now exists x | reflexivity].
  - destruct x as [|c' x].
    + split; [discriminate | intros [b H]; discriminate].
    + rewrite andb_true_iff, Ascii.eqb_eq, IH. split.
      * intros [-> [b ->]]. now exists b.
      * intros [b [= -> ->]]. split; [reflexivity | now exists b].
Qed.

Lemma includes_spec (x s : string) :
  JS.includes x s = true <-> exists a b, x = a ++ s ++ b.
Proof.
  split.
  - induction x as [|c x IH]; simpl; rewrite orb_true_iff.
    + intros [H | H]; [|discriminate].
      apply startsWith_spec in H as [b ->]. now exists "", b.
    + intros [H | H].
      * apply startsWith_spec in H as [b ->]. now exists "", b.
      * destruct (IH H) as (a & b & ->). now exists (String c a), b.
  - intros (a & b & ->). induction a as [|c a IH].
    + assert (H : JS.startsWith (s ++ b) s = true)
        by (apply startsWith_spec; now exists b).
      simpl. destruct (s ++ b); simpl in *; rewrite H; reflexivity.
    + simpl. rewrite IH. apply orb_true_r.
Qed.

(** C2 (amended).  The rows GET [/api/tasks] selects are those that
    satisfy, for every provided (non-empty) parameter, one clause:
    [status] and [priority] equal the parameter, [projectId] and
    [assignedTo] equal [parseInt] of the parameter, and for [search]
    the title or the description matches the [LIKE] pattern
    [%search%].  For a search string without [%], [_] and backslash
    that match is a case-sensitive substring test. *)
Theorem where_clause_meaning (q : Query) (t : Task.t) :
  (Sql.selects (where_clause q) t = true
   <-> (forall s, provided (q_status q) s -> status_name (Task.status t) = s)
    /\ (forall s, provided (q_priority q) s ->
        priority_name (Task.priority t) = s)
    /\ (forall s, provided (q_projectId q) s ->
        JS.parseInt s = JS.Int (Task.projectId t))
    /\ (forall s, provided (q_assignedTo q) s ->
        exists a, Task.assignedTo t = Some a /\ JS.parseInt s = JS.Int a)
    /\ (forall s, provided (q_search q) s ->
        Sql.like (Task.title t) ("%" ++ s ++ "%") = true
        \/ (exists d, Task.description t = Some d
                      /\ Sql.like d ("%" ++ s ++ "%") = true)))
  /\ (forall s x, plain s = true ->
      (Sql.like x ("%" ++ s ++ "%") = true <-> exists a b, x = a ++ s ++ b)).
Proof.
  split.
  - rewrite selects_where_clause. unfold conditions.
    rewrite !Forall_app, !Forall_push_if.
    setoid_rewrite eq_status_true. setoid_rewrite eq_priority_true.
    setoid_rewrite eq_projectId_true. setoid_rewrite eq_assignedTo_true.
    setoid_rewrite search_true. reflexivity.
  - intros s x H. rewrite (like_includes s x H). apply includes_spec.
Qed.

(* ------------------------------------------------------------------ *)
(** ** More on creating a task *)

Lemma assoc_statuses (s : string) (st : Status) :
  Zod.assoc s statuses = Some st <-> status_name st = s.
Proof.
  split.
  - unfold statuses. cbn [Zod.assoc].
    repeat match goal with
           | |- context [String.eqb ?k s] =>
               destruct (String.eqb_spec k s) as [<- | _];
               [intros [= <-]; reflexivity|]
           end.
    discriminate.
  - intros <-. destruct st; reflexivity.
Qed.

Lemma assoc_priorities (s : string) (p : Priority) :
  Zod.assoc s priorities = Some p <-> priority_name p = s.
Proof.
  split.
  - unfold priorities. cbn [Zod.assoc].
    repeat match goal with
           | |- context [String.eqb ?k s] =>
               destruct (String.eqb_spec k s) as [<- | _];
               [intros [= <-]; reflexivity|]
           end.
    discriminate.
  - intros <-. destruct p; reflexivity.
Qed.

Lemma min1_valid (v : option json) (s : string) :
  Zod.min 1 Zod.string_ v = Zod.Ok s -> v = Some (JStr s) /\ s <> "".
Proof.
  unfold Zod.min. destruct v as [j|]; [|discriminate].
  destruct (Zod.string_ (Some j)) as [x|] eqn:Hx; [|discriminate].
  apply string_valid in Hx as ->.
  destruct x; simpl; [discriminate|]. intros [= <-]. split; [reflexivity | discriminate].
Qed.

Lemma required_positive_int_valid (v : option json) (z : Z) :
  Zod.positive (Zod.int Zod.number) v = Zod.Ok z -> v = Some (JNum z) /\ 0 < z.
Proof.
  destruct v as [j|]; [|discriminate].
  intros H. apply positive_int_valid in H as [-> Hz]. auto.
Qed.

Lemma default_enum_valid {A : Type} (values : list (string * A))
  (dflt : string) (v : option json) (a : A) :
  Zod.default (JStr dflt) (Zod.optional (Zod.enum values)) v = Zod.Ok a ->
  (v = None /\ Zod.assoc dflt values = Some a)
  \/ (exists s, v = Some (JStr s) /\ Zod.assoc s values = Some a).
Proof.
  unfold Zod.default. destruct v as [j|].
  - destruct (Zod.optional (Zod.enum values) (Some j)) as [[x|]|] eqn:Hx;
      try discriminate.
    intros [= <-].
    apply optional_valid in Hx as [[H _] | (j' & x' & [= <-] & Hj & [= <-])];
      [discriminate|].
    apply enum_valid in Hj as (s & -> & Hs). right. eauto.
  - simpl. destruct (Zod.assoc dflt values) as [x|]; [|discriminate].
    intros [= <-]. left. auto.
Qed.

(** What an accepted create payload looks like, key by key. *)
Lemma create_fields (o : list (string * json)) (d : CreateTask) :
  createTaskSchema (JObj o) = Zod.Valid d ->
  (get_field "title" o = Some (JStr (c_title d)) /\ c_title d <> "")
  /\ ((get_field "description" o = None /\ c_description d = None)
      \/ (exists s, get_field "description" o = Some (JStr s)
                    /\ c_description d = Some s))
  /\ ((get_field "status" o = None /\ c_status d = todo)
      \/ (exists s, get_field "status" o = Some (JStr s)
                    /\ Zod.assoc s statuses = Some (c_status d)))
  /\ ((get_field "priority" o = None /\ c_priority d = medium)
      \/ (exists s, get_field "priority" o = Some (JStr s)
                    /\ Zod.assoc s priorities = Some (c_priority d)))
  /\ (get_field "projectId" o = Some (JNum (c_projectId d)) /\ 0 < c_projectId d)
  /\ ((get_field "assignedTo" o = None /\ c_assignedTo d = None)
      \/ (exists z, get_field "assignedTo" o = Some (JNum z) /\ 0 < z
                    /\ c_assignedTo d = Some z))
  /\ ((get_field "dueDate" o = None /\ c_dueDate d = None)
      \/ (exists s, get_field "dueDate" o = Some (JStr s)
                    /\ datetime_ok s = true /\ c_dueDate d = Some s)).
Proof.
  intros H. unfold createTaskSchema in H. split_ap H. cbn [c_title c_description
    c_status c_priority c_projectId c_assignedTo c_dueDate].
  repeat match goal with
         | Hf : Zod.field _ _ _ = _ |- _ => apply field_valid in Hf
         end.
  repeat match goal with
         | Hf : Zod.min 1 _ _ = Zod.Ok _ |- _ => apply min1_valid in Hf
         | Hf : Zod.positive _ _ = Zod.Ok _ |- _ =>
             apply required_positive_int_valid in Hf
         | Hf : Zod.default _ _ _ = Zod.Ok _ |- _ => apply default_enum_valid in Hf
         | Hf : Zod.optional _ _ = Zod.Ok _ |- _ => apply optional_valid in Hf
         end.
  repeat match goal with
         | Hf : _ = Some _ /\ _ |- _ => destruct Hf
         end.
  repeat split; try assumption.
  - match goal with
    | Hf : _ \/ (exists j x, get_field "description" o = _ /\ _) |- _ =>
        destruct Hf as [Hf | (j & x & Hj & Hx & ->)]; [left; exact Hf|]
    end.
    apply string_valid in Hx as ->. right. eauto.
  - match goal with
    | Hf : (get_field "status" o = None /\ _) \/ _ |- _ =>
        destruct Hf as [[Hn Hd] | Hf]; [left | right; exact Hf]
    end.
    split; [exact Hn|]. simpl in Hd. now injection Hd as <-.
  - match goal with
    | Hf : (get_field "priority" o = None /\ _) \/ _ |- _ =>
        destruct Hf as [[Hn Hd] | Hf]; [left | right; exact Hf]
    end.
    split; [exact Hn|]. simpl in Hd. now injection Hd as <-.
  - match goal with
    | Hf : _ \/ (exists j x, get_field "assignedTo" o = _ /\ _) |- _ =>
        destruct Hf as [Hf | (j & x & Hj & Hx & ->)]; [left; exact Hf|]
    end.
    apply positive_int_valid in Hx as [-> Hpos]. right. eauto.
  - match goal with
    | Hf : _ \/ (exists j x, get_field "dueDate" o = _ /\ _) |- _ =>
        destruct Hf as [Hf | (j & x & Hj & Hx & ->)]; [left; exact Hf|]
    end.
    apply datetime_valid in Hx as [-> Hok]. right. eauto.
Qed.

Lemma new_row_created (o : list (string * json)) (d : CreateTask)
  (u : User.t) (now id : Z) :
  createTaskSchema (JObj o) = Zod.Valid d ->
  new_row now (new_values d u) id = created o u now id.
Proof.
  intros H. apply create_fields in H
    as ([Ht _] & Hde & Hs & Hp & [Hpr _] & Ha & Hd).
  unfold created, new_row, new_values.
  cbn [n_title n_description n_status n_priority n_projectId n_assignedTo
         n_createdBy n_dueDate].
  rewrite Ht, Hpr. f_equal.
  - destruct Hde as [[-> ->] | (s & -> & ->)]; reflexivity.
  - destruct Hs as [[-> ->] | (s & -> & ->)]; reflexivity.
  - destruct Hp as [[-> ->] | (s & -> & ->)]; reflexivity.
  - destruct Ha as [[-> ->] | (z & -> & _ & ->)]; reflexivity.
  - destruct Hd as [[-> ->] | (s & -> & _ & ->)]; [reflexivity|].
    cbn [JS.truthy option_map]. destruct (String.eqb s ""); cbn [negb]; [reflexivity|].
    destruct (Date_parse s); reflexivity.
Qed.


Lemma accepted_creatable (o : list (string * json)) (d : CreateTask) :
  createTaskSchema (JObj o) = Zod.Valid d -> creatable o.
Proof.
  intros H. apply create_fields in H as (Ht & Hde & Hs & Hp & Hpr & Ha & Hd).
  unfold creatable. repeat split.
  - exists (c_title d). exact Ht.
  - destruct Hde as [[H _] | (s & H & _)]; eauto.
  - destruct Hs as [[H _] | (s & H & Hs)]; [auto|].
    apply assoc_statuses in Hs as <-. eauto.
  - destruct Hp as [[H _] | (s & H & Hp)]; [auto|].
    apply assoc_priorities in Hp as <-. eauto.
  - exists (c_projectId d). exact Hpr.
  - destruct Ha as [[H _] | (z & H & Hz & _)]; eauto.
  - destruct Hd as [[H _] | (s & H & Hok & _)]; eauto.
Qed.

Lemma creatable_accepted (o : list (string * json)) :
  creatable o -> exists d, createTaskSchema (JObj o) = Zod.Valid d.
Proof.
  intros ((t & Ht & Hne) & Hde & Hs & Hp & (z & Hz & Hpos) & Ha & Hd).
  assert (F1 : Zod.field o "title" (Zod.min 1 Zod.string_) = Zod.Valid t).
  { unfold Zod.field. rewrite Ht. destruct t; [contradiction | reflexivity]. }
  assert (F2 : exists x, Zod.field o "description" (Zod.optional Zod.string_)
                         = Zod.Valid x).
  { unfold Zod.field. destruct Hde as [-> | [s ->]]; eexists; reflexivity. }
  assert (F3 : exists x, Zod.field o "status"
                 (Zod.default (JStr "todo") (Zod.optional (Zod.enum statuses)))
               = Zod.Valid x).
  { unfold Zod.field. destruct Hs as [-> | [st ->]]; [eexists; reflexivity|].
    exists st. destruct st; reflexivity. }
  assert (F4 : exists x, Zod.field o "priority"
                 (Zod.default (JStr "medium") (Zod.optional (Zod.enum priorities)))
               = Zod.Valid x).
  { unfold Zod.field. destruct Hp as [-> | [p ->]]; [eexists; reflexivity|].
    exists p. destruct p; reflexivity. }
  assert (F5 : Zod.field o "projectId" (Zod.positive (Zod.int Zod.number))
               = Zod.Valid z).
  { unfold Zod.field. rewrite Hz. cbn -[Z.ltb].
    apply Z.ltb_lt in Hpos. now rewrite Hpos. }
  assert (F6 : exists x, Zod.field o "assignedTo"
                 (Zod.optional (Zod.positive (Zod.int Zod.number)))
               = Zod.Valid x).
  { unfold Zod.field. destruct Ha as [-> | (a & -> & Hap)]; [eexists; reflexivity|].
    cbn -[Z.ltb]. apply Z.ltb_lt in Hap. rewrite Hap. eexists; reflexivity. }
  assert (F7 : exists x, Zod.field o "dueDate"
                 (Zod.optional (Zod.datetime datetime_ok Zod.string_))
               = Zod.Valid x).
  { unfold Zod.field. destruct Hd as [-> | (s & -> & Hok)]; [eexists; reflexivity|].
    unfold Zod.optional, Zod.datetime, Zod.string_. rewrite Hok.
    eexists; reflexivity. }
  destruct F2 as [x2 F2], F3 as [x3 F3], F4 as [x4 F4], F6 as [x6 F6],
    F7 as [x7 F7].
  unfold createTaskSchema. rewrite F1, F2, F3, F4, F5, F6, F7.
  eexists. reflexivity.
Qed.

(** X2.  POST [/api/tasks] answers 400 (ValidationError) exactly when
    the body is not an object with a non-empty string [title], a
    positive integer [projectId] and, for each optional key it has, a
    string [description], a [status] and a [priority] of the
    enumerations, a positive integer [assignedTo] and a date-time
    string [dueDate].  The answer 400 leaves the table as it was. *)
Theorem post_task_rejects_exactly (now : Z) (req : Request) (db : Store) :
  (exists issues, post_task now req db = (ValidationError issues, db))
  <-> ~ (exists o, body req = JObj o /\ creatable o).
Proof.
  unfold post_task. split.
  - intros [issues H] (o & Hb & Hc). rewrite Hb in H.
    destruct (creatable_accepted o Hc) as [d Hd]. rewrite Hd in H.
    destruct (user req); [|discriminate].
    destruct (insert_returning _ _ _) as [[task|] db']; discriminate.
  - intros Hno.
    destruct (createTaskSchema (body req)) as [d|issues] eqn:Hd.
    + exfalso. apply Hno.
      destruct (body req) as [| | | | |l|o]; try discriminate.
      exists o. split; [reflexivity|]. exact (accepted_creatable o d Hd).
    + exists issues. reflexivity.
Qed.

(* ------------------------------------------------------------------ *)
(** ** Invariants of the table *)

Lemma update_is_object (b : json) (d : UpdateTask) :
  updateTaskSchema b = Zod.Valid d -> exists o, b = JObj o.
Proof. destruct b; try discriminate. eauto. Qed.

Lemma create_is_object (b : json) (d : CreateTask) :
  createTaskSchema b = Zod.Valid d -> exists o, b = JObj o.
Proof. destruct b; try discriminate. eauto. Qed.

Lemma created_well_formed (o : list (string * json)) (d : CreateTask)
  (u : User.t) (now id : Z) :
  createTaskSchema (JObj o) = Zod.Valid d -> well_formed (created o u now id).
Proof.
  intros H. apply create_fields in H
    as ([Ht Hne] & _ & _ & _ & [Hpr Hpos] & Ha & _).
  unfold well_formed, created. simpl. rewrite Ht, Hpr.
  repeat split; [exact Hne | exact Hpos |].
  intros a. destruct Ha as [[-> _] | (z & -> & Hz & _)]; [discriminate|].
  now intros [= <-].
Qed.

Lemma updated_well_formed (b : json) (d : UpdateTask) (now : Z) (t : Task.t) :
  updateTaskSchema b = Zod.Valid d ->
  well_formed t -> well_formed (set_columns (updateData now d) t).
Proof.
  intros H (Ht & Hp & Ha).
  destruct (update_is_object b d H) as [o ->].
  destruct (accepted_fields o d H) as (Ft & _ & _ & _ & Fa & _).
  unfold well_formed, set_columns, updateData. simpl. repeat split.
  - apply optional_valid in Ft as [[_ ->] | (j & s & Hj & Hs & ->)]; [exact Ht|].
    simpl. rewrite <- Hj in Hs. apply min1_valid in Hs as [_ Hs]. exact Hs.
  - exact Hp.
  - intros a. apply optional_valid in Fa as [[_ ->] | (j & z & _ & Hz & ->)].
    + exact (Ha a).
    + simpl. intros [= <-]. now apply positive_int_valid in Hz.
Qed.

(** X3.  The rows keep what the validator checked: if every row has a
    non-empty title, a positive project id and, when assigned, a
    positive assignee id, the same holds after POST, after PUT and
    after DELETE, whatever the request. *)
Theorem rows_stay_well_formed (now : Z) (req : Request) (db : Store) :
  Forall well_formed (rows db) ->
  Forall well_formed (rows (snd (post_task now req db)))
  /\ Forall well_formed (rows (snd (put_task now req db)))
  /\ Forall well_formed (rows (snd (delete_task req db))).
Proof.
  intros Hwf. split; [|split].
  - unfold post_task.
    destruct (createTaskSchema (body req)) as [d|issues] eqn:Hd; [|exact Hwf].
    destruct (user req) as [u|]; [|exact Hwf].
    fold (new_values d u).
    destruct (insert_returning_cases now (new_values d u) db)
      as [(-> & _) | (db' & -> & Hrows & _)].
    + destruct (create_is_object _ _ Hd) as [o Hb]. rewrite Hb in Hd.
      rewrite (new_row_created o d u now (next_id db) Hd). cbn [snd].
      apply Forall_mkStore.
      apply Forall_app. split; [exact Hwf|].
      constructor; [|constructor]. exact (created_well_formed o d u now _ Hd).
    + cbn [snd]. rewrite Hrows. exact Hwf.
  - unfold put_task.
    destruct (JS.isNaN (JS.parseInt (param_id req))); [exact Hwf|].
    destruct (updateTaskSchema (body req)) as [d|issues] eqn:Hd; [|exact Hwf].
    destruct (Sql.run_select _ _) as [selected|]; [|exact Hwf].
    destruct (Sql.limit 1 selected); [exact Hwf|].
    unfold run_update. destruct (settable (updateData now d)); [|exact Hwf].
    unfold update_where. destruct (writable (updateData now d)); [|exact Hwf].
    assert (Hall : Forall well_formed
              (map (fun t => if Sql.selects (by_id (JS.parseInt (param_id req))) t
                             then set_columns (updateData now d) t else t)
                 (rows db))).
    { apply Forall_map. eapply Forall_impl; [|exact Hwf]. intros x Hx.
      destruct (Sql.selects _ x); [|exact Hx].
      exact (updated_well_formed _ d now x Hd Hx). }
    destruct (map (set_columns (updateData now d)) _); cbn [snd];
      apply Forall_mkStore; exact Hall.
  - unfold delete_task.
    destruct (JS.isNaN (JS.parseInt (param_id req))); [exact Hwf|].
    destruct (Sql.run_select _ _) as [selected|]; [|exact Hwf].
    destruct (Sql.limit 1 selected); [exact Hwf|]. cbn [snd].
    apply Forall_mkStore.
    unfold Sql.delete_where. apply Forall_forall. intros x Hx.
    apply filter_In in Hx as [Hx _].
    rewrite Forall_forall in Hwf. exact (Hwf x Hx).
Qed.

Lemma update_where_keeps_fixed (d : UpdateData) (w : option Sql.Cond)
  (table table' returned : list Task.t) :
  update_where d w table = Some (table', returned) ->
  map fixed_part table' = map fixed_part table.
Proof.
  unfold update_where. destruct (writable d); [|discriminate].
  intros [= <- _]. rewrite map_map. apply map_ext. intros t.
  destruct (Sql.selects w t); reflexivity.
Qed.

Lemma put_task_fixed (now : Z) (req : Request) (db : Store) :
  map fixed_part (rows (snd (put_task now req db))) = map fixed_part (rows db)
  /\ next_id (snd (put_task now req db)) = next_id db.
Proof.
  unfold put_task.
  destruct (JS.isNaN (JS.parseInt (param_id req))); [auto|].
  destruct (updateTaskSchema (body req)) as [d|issues]; [|auto].
  destruct (Sql.run_select _ _) as [selected|]; [|auto].
  destruct (Sql.limit 1 selected); [auto|].
  destruct (run_update _ _ _) as [[table returned]|] eqn:Hupd; [|auto].
  pose proof (rows_updated _ _ db table returned (next_id db) Hupd) as Hrows.
  apply run_update_some, update_where_keeps_fixed in Hupd.
  destruct returned; cbn [snd]; rewrite Hrows; (split; [exact Hupd | reflexivity]).
Qed.

Lemma ids_of_fixed (l l' : list Task.t) :
  map fixed_part l' = map fixed_part l -> map Task.id l' = map Task.id l.
Proof.
  intros H.
  assert (E : forall x, map Task.id x = map (fun p => fst (fst (fst p))) (map fixed_part x))
    by (intros x; rewrite map_map; reflexivity).
  rewrite (E l'), (E l), H. reflexivity.
Qed.

Lemma filter_keeps_distinct_ids (keep : Task.t -> bool) (table : list Task.t) :
  NoDup (map Task.id table) -> NoDup (map Task.id (filter keep table)).
Proof.
  intros Hnd. induction table as [|t table IH]; [constructor|].
  cbn [map filter] in *. inversion Hnd as [|? ? Hnot Hnd']; subst.
  destruct (keep t); [|exact (IH Hnd')].
  cbn [map]. constructor; [|exact (IH Hnd')].
  intros Hin. apply Hnot. apply in_map_iff in Hin as (x & Hx & Hin).
  apply filter_In in Hin as [Hin _]. apply in_map_iff. eauto.
Qed.

(** X4.  The primary key survives every route: if the ids of the rows
    are distinct and below the next value of the sequence, the same
    holds after POST (which draws the new id from the sequence), after
    PUT and after DELETE, whatever the request. *)
Theorem table_stays_well_keyed (now : Z) (req : Request) (db : Store) :
  well_keyed db ->
  well_keyed (snd (post_task now req db))
  /\ well_keyed (snd (put_task now req db))
  /\ well_keyed (snd (delete_task req db)).
Proof.
  intros [Hnd Hlt]. split; [|split].
  - unfold post_task.
    destruct (createTaskSchema (body req)) as [d|issues]; [|split; assumption].
    destruct (user req) as [u|]; [|split; assumption].
    fold (new_values d u).
    destruct (insert_returning_cases now (new_values d u) db)
      as [(-> & Hb & Hi & _) | (db' & -> & Hrows & Hnext & _)].
    + unfold well_keyed. cbn [snd].
      rewrite (rows_appended db _ _ (new_row_typed now _ _ Hb Hi)).
      change (next_id (mkStore _ (next_id db + 1))) with (next_id db + 1).
      split.
      * rewrite map_app. cbn [map new_row Task.id].
        apply (Permutation_NoDup (Permutation_cons_append _ _)).
        constructor; [|exact Hnd].
        intros Hin. apply in_map_iff in Hin as (x & Hx & Hin).
        specialize (Hlt x Hin). lia.
      * intros x Hx. apply in_app_or in Hx as [Hx | [<- | []]].
        -- specialize (Hlt x Hx). lia.
        -- cbn [new_row Task.id]. lia.
    + unfold well_keyed. cbn [snd]. rewrite Hrows. split; [exact Hnd|].
      intros x Hx. specialize (Hlt x Hx). destruct Hnext as [-> | ->]; lia.
  - destruct (put_task_fixed now req db) as [Hfix Hnext].
    apply ids_of_fixed in Hfix. unfold well_keyed. rewrite Hfix, Hnext.
    split; [exact Hnd|].
    intros t Ht. apply (in_map Task.id) in Ht. rewrite Hfix in Ht.
    apply in_map_iff in Ht as (t' & <- & Ht'). exact (Hlt t' Ht').
  - unfold delete_task.
    destruct (JS.isNaN (JS.parseInt (param_id req))); [split; assumption|].
    destruct (Sql.run_select _ _) as [selected|]; [|split; assumption].
    destruct (Sql.limit 1 selected); [split; assumption|].
    unfold well_keyed, Sql.delete_where. cbn [snd]. rewrite rows_kept.
    change (next_id (mkStore _ (next_id db))) with (next_id db). split.
    + now apply filter_keeps_distinct_ids.
    + intros x Hx. apply filter_In in Hx as [Hx _]. exact (Hlt x Hx).
Qed.

(* ------------------------------------------------------------------ *)
(** ** Reading back what was written *)

Lemma select_unique (l : list Task.t) (t : Task.t) :
  NoDup (map Task.id l) -> In t l ->
  Sql.select_where (by_id (JS.Int (Task.id t))) l = [t].
Proof.
  unfold Sql.select_where.
  induction l as [|a l IH]; cbn [filter map In]; intros Hnd Hin; [contradiction|].
  inversion Hnd as [|? ? Hnot Hnd']; subst. rewrite selects_by_id.
  destruct Hin as [-> | Hin].
  - rewrite Z.eqb_refl. f_equal. apply filter_none. intros x Hx.
    rewrite selects_by_id. apply Z.eqb_neq. intros E. apply Hnot.
    rewrite <- E. now apply in_map.
  - destruct (Z.eqb_spec (Task.id a) (Task.id t)) as [E | _].
    + exfalso. apply Hnot. rewrite E. now apply in_map.
    + now apply IH.
Qed.

(** X5.  Under the primary key, GET [/api/tasks/:id] with the id of a
    row answers 200 with exactly that row, and leaves the table as it
    was. *)
Theorem get_task_finds (req : Request) (db : Store) (t : Task.t) :
  NoDup (map Task.id (rows db)) ->
  In t (rows db) ->
  JS.parseInt (param_id req) = JS.Int (Task.id t) ->
  get_task req db = (res_json (TaskBody t), db).
Proof.
  intros Hnd Hin Hid. unfold get_task.
  rewrite Hid, run_select_by_id, (id_in_table db t Hin).
  simpl JS.isNaN. cbv iota.
  rewrite (select_unique _ t Hnd Hin). reflexivity.
Qed.

(** X6.  A task that POST [/api/tasks] created can be read back: on a
    table whose ids are below the sequence, the answer 201 carries a
    task that GET [/api/tasks/:id], asked for that task's id on the
    new table, returns unchanged. *)
Theorem post_then_get
  (now : Z) (req req' : Request) (db db' : Store) (msg : string) (task : Task.t) :
  (forall t, In t (rows db) -> Task.id t < next_id db) ->
  post_task now req db = (status_json 201 (MessageTaskBody msg task), db') ->
  JS.parseInt (param_id req') = JS.Int (Task.id task) ->
  get_task req' db' = (res_json (TaskBody task), db').
Proof.
  intros Hlt Hpost Hid. unfold post_task in Hpost.
  destruct (createTaskSchema (body req)) as [d|issues]; [|discriminate].
  destruct (user req) as [u|]; [|discriminate].
  fold (new_values d u) in Hpost.
  destruct (insert_returning_cases now (new_values d u) db)
    as [(E & Hb & Hint & _) | (x & E & _)]; rewrite E in Hpost; [|discriminate].
  injection Hpost as _ <- <-.
  unfold get_task. rewrite Hid, run_select_by_id.
  cbn [new_row Task.id]. rewrite Hint. simpl JS.isNaN. cbv iota.
  rewrite (rows_appended db _ _ (new_row_typed now _ _ Hb Hint)).
  unfold Sql.select_where. rewrite filter_app.
  rewrite (filter_none _ (rows db)).
  - cbn [app filter]. rewrite selects_by_id. cbn [new_row Task.id].
    rewrite Z.eqb_refl. reflexivity.
  - intros y Hy. rewrite selects_by_id. apply Z.eqb_neq.
    specialize (Hlt y Hy). lia.
Qed.

Lemma select_nonempty (w : option Sql.Cond) (l : list Task.t) (t : Task.t) :
  In t l -> Sql.selects w t = true ->
  exists x r, Sql.limit 1 (Sql.select_where w l) = x :: r.
Proof.
  intros Hin Hsel.
  assert (H : In t (Sql.select_where w l)) by (apply filter_In; auto).
  destruct (Sql.select_where w l) as [|x r]; [contradiction|].
  exists x, []. reflexivity.
Qed.

Lemma delete_by_id (taskId : Z) (l : list Task.t) :
  Sql.delete_where (by_id (JS.Int taskId)) l
  = filter (fun r => negb (Task.id r =? taskId)) l.
Proof.
  unfold Sql.delete_where. apply filter_ext. intros r.
  now rewrite selects_by_id.
Qed.

(** X7.  DELETE [/api/tasks/:id] on the id of a row answers 200,
    removes every row with that id and nothing else: afterwards no
    row has the id, the rows with other ids are all still there, and
    the sequence is where it was. *)
Theorem delete_task_removes (req : Request) (db : Store) (taskId : Z) (t : Task.t) :
  JS.parseInt (param_id req) = JS.Int taskId ->
  In t (rows db) ->
  Task.id t = taskId ->
  delete_task req db
  = (res_json (MessageBody "Task deleted successfully"),
     mkStore (filter (fun r => negb (Task.id r =? taskId)) (rows db)) (next_id db))
  /\ absent taskId (snd (delete_task req db))
  /\ (forall r, In r (rows db) -> Task.id r <> taskId ->
      In r (rows (snd (delete_task req db)))).
Proof.
  intros Hid Hin Ht.
  assert (Hint : Sql.int4 taskId = true)
    by (rewrite <- Ht; exact (id_in_table db t Hin)).
  assert (E : delete_task req db
              = (res_json (MessageBody "Task deleted successfully"),
                 mkStore (filter (fun r => negb (Task.id r =? taskId)) (rows db))
                   (next_id db))).
  { unfold delete_task. rewrite Hid, run_select_by_id, Hint.
    simpl JS.isNaN. cbv iota.
    destruct (select_nonempty (by_id (JS.Int taskId)) (rows db) t Hin)
      as (x & r & ->).
    - rewrite selects_by_id. now apply Z.eqb_eq.
    - now rewrite delete_by_id. }
  rewrite E. split; [reflexivity|]. unfold absent. cbn [snd].
  rewrite rows_kept. split.
  - intros r Hr. apply filter_In in Hr as [_ Hr].
    apply negb_true_iff, Z.eqb_neq in Hr. exact Hr.
  - intros r Hr Hne. apply filter_In. split; [exact Hr|].
    now apply negb_true_iff, Z.eqb_neq.
Qed.

Lemma select_after_delete (w : option Sql.Cond) (l : list Task.t) :
  Sql.select_where w (Sql.delete_where w l) = [].
Proof.
  unfold Sql.select_where, Sql.delete_where. apply filter_none.
  intros x Hx. apply filter_In in Hx as [_ Hx]. now apply negb_true_iff.
Qed.

(** X8.  A deletion is final: after DELETE [/api/tasks/:id] with a
    numeric id within 32 bits, whatever it answered, GET and DELETE
    with the same id answer 404 (NotFound) and change nothing.  (With
    an id outside 32 bits all of them answer 500.) *)
Theorem delete_then_not_found (req : Request) (db : Store) (taskId : Z) :
  JS.parseInt (param_id req) = JS.Int taskId ->
  (Sql.int4 taskId = true ->
   get_task req (snd (delete_task req db)) = (NotFound, snd (delete_task req db))
   /\ delete_task req (snd (delete_task req db))
      = (NotFound, snd (delete_task req db)))
  /\ (Sql.int4 taskId = false ->
      delete_task req db = (InternalError "Failed to delete task", db)
      /\ get_task req db = (InternalError "Failed to fetch task", db)).
Proof.
  intros Hp. split; intros Hint.
  - set (db' := snd (delete_task req db)).
    assert (E : Sql.select_where (by_id (JS.Int taskId)) (rows db') = []).
    { subst db'. unfold delete_task. rewrite Hp, run_select_by_id, Hint.
      simpl JS.isNaN. cbv iota.
      destruct (Sql.select_where (by_id (JS.Int taskId)) (rows db)) eqn:Hsel.
      - simpl. exact Hsel.
      - cbn [Sql.limit firstn snd]. rewrite rows_deleted.
        apply select_after_delete. }
    clearbody db'. unfold get_task, delete_task.
    rewrite Hp, run_select_by_id, Hint.
    simpl JS.isNaN. cbv iota. rewrite E. split; reflexivity.
  - unfold get_task, delete_task. rewrite Hp, run_select_by_id, Hint.
    split; reflexivity.
Qed.

(* ------------------------------------------------------------------ *)
(** ** More on updating a task *)

Lemma selects_set (n : JS.number) (d : UpdateData) (t : Task.t) :
  Sql.selects (by_id n) (set_columns d t) = Sql.selects (by_id n) t.
Proof. reflexivity. Qed.

Lemma select_map_set (n : JS.number) (d : UpdateData) (l : list Task.t) :
  Sql.select_where (by_id n)
    (map (fun t => if Sql.selects (by_id n) t then set_columns d t else t) l)
  = map (set_columns d) (Sql.select_where (by_id n) l).
Proof.
  unfold Sql.select_where.
  induction l as [|a l IH]; cbn [map filter]; [reflexivity|].
  destruct (Sql.selects (by_id n) a) eqn:Ha.
  - rewrite selects_set, Ha. cbn [map]. now rewrite IH.
  - rewrite Ha. exact IH.
Qed.

Lemma set_set (now now' : Z) (v : UpdateTask) (t : Task.t) :
  set_columns (updateData now' v) (set_columns (updateData now v) t)
  = set_columns (updateData now' v) t.
Proof.
  destruct v as [ti de st pr asg [due|]];
    unfold set_columns, updateData; cbn;
    destruct ti, de, st, pr, asg; try destruct (String.eqb due "");
    cbn; try destruct (Date_parse due); reflexivity.
Qed.

Lemma writable_any_time (now now' : Z) (v : UpdateTask) :
  writable (updateData now' v) = writable (updateData now v).
Proof. reflexivity. Qed.

(** X9.  PUT [/api/tasks/:id] writes one task's editable columns and
    nothing else: for every request, the table keeps its rows in
    place with their id, project, creator and creation time, the
    sequence is where it was, and a row whose id is not the one asked
    for is unchanged. *)
Theorem put_task_frame (now : Z) (req : Request) (db : Store) :
  map fixed_part (rows (snd (put_task now req db))) = map fixed_part (rows db)
  /\ next_id (snd (put_task now req db)) = next_id db
  /\ (forall i r, nth_error (rows db) i = Some r ->
      JS.parseInt (param_id req) <> JS.Int (Task.id r) ->
      nth_error (rows (snd (put_task now req db))) i = Some r).
Proof.
  destruct (put_task_fixed now req db) as [Hfix Hnext].
  split; [exact Hfix|]. split; [exact Hnext|].
  intros i r Hi Hne. unfold put_task.
  destruct (JS.parseInt (param_id req)) as [|taskId]; [exact Hi|].
  simpl JS.isNaN. cbv iota.
  destruct (updateTaskSchema (body req)) as [d|issues]; [|exact Hi].
  destruct (Sql.run_select _ _) as [selected|]; [|exact Hi].
  destruct (Sql.limit 1 selected); [exact Hi|].
  unfold run_update. destruct (settable (updateData now d)) eqn:Hset; [|exact Hi].
  unfold update_where. destruct (writable (updateData now d)); [|exact Hi].
  assert (Hrow : nth_error
            (map (fun t => if Sql.selects (by_id (JS.Int taskId)) t
                           then set_columns (updateData now d) t else t)
               (rows db)) i = Some r).
  { rewrite nth_error_map, Hi. cbn [option_map]. rewrite selects_by_id.
    destruct (Z.eqb_spec (Task.id r) taskId) as [E | _]; [|reflexivity].
    exfalso. apply Hne. now rewrite E. }
  destruct (map (set_columns (updateData now d)) _); cbn [snd];
    rewrite (rows_set _ _ db _ Hset); exact Hrow.
Qed.

(** X10.  Replaying an update changes nothing but the time stamp: a
    PUT made a second time, on the table the first one left, answers
    and leaves what a single PUT at the later time does. *)
Theorem put_task_replay (now now' : Z) (req : Request) (db : Store) :
  put_task now' req (snd (put_task now req db)) = put_task now' req db.
Proof.
  unfold put_task.
  destruct (JS.parseInt (param_id req)) as [|taskId]; [reflexivity|].
  simpl JS.isNaN. cbv iota.
  destruct (updateTaskSchema (body req)) as [d|issues]; [|reflexivity].
  rewrite !run_select_by_id.
  destruct (Sql.int4 taskId); [|reflexivity].
  destruct (Sql.select_where (by_id (JS.Int taskId)) (rows db))
    as [|x l] eqn:Hsel.
  - simpl. rewrite Hsel. reflexivity.
  - cbn [Sql.limit firstn]. unfold run_update.
    change (settable (updateData now' d)) with (settable (updateData now d)).
    destruct (settable (updateData now d)) eqn:Hset.
    + unfold update_where.
      rewrite (writable_any_time now now' d).
      destruct (writable (updateData now d)) eqn:Hw.
      * rewrite Hsel. cbn [map snd].
        rewrite (rows_set _ _ db _ Hset).
        change (next_id (mkStore _ (next_id db))) with (next_id db).
        rewrite select_map_set, Hsel. cbn [map Sql.limit firstn].
        rewrite map_map, set_set. cbn [map].
        f_equal. f_equal. apply map_ext. intros t.
        destruct (Sql.selects (by_id (JS.Int taskId)) t) eqn:Ht.
        -- rewrite selects_set, Ht. apply set_set.
        -- rewrite Ht. reflexivity.
      * cbn [snd]. rewrite Hsel. reflexivity.
    + cbn [snd]. rewrite Hsel. reflexivity.
Qed.

(** X11.  What PUT [/api/tasks/:id] answers is what is stored: when
    the answer carries a task, GET with the same id on the new table
    returns that task. *)
Theorem put_then_get
  (now : Z) (req : Request) (db : Store) (msg : string) (task : Task.t) :
  fst (put_task now req db) = res_json (MessageTaskBody msg task) ->
  get_task req (snd (put_task now req db))
  = (res_json (TaskBody task), snd (put_task now req db)).
Proof.
  unfold put_task, get_task.
  destruct (JS.parseInt (param_id req)) as [|taskId]; [discriminate|].
  simpl JS.isNaN. cbv iota.
  destruct (updateTaskSchema (body req)) as [d|issues]; [|discriminate].
  rewrite !run_select_by_id.
  destruct (Sql.int4 taskId); [|discriminate].
  destruct (Sql.select_where (by_id (JS.Int taskId)) (rows db))
    as [|x l] eqn:Hsel; [discriminate|].
  cbn [Sql.limit firstn]. unfold run_update.
  destruct (settable (updateData now d)) eqn:Hset; [|discriminate].
  unfold update_where.
  destruct (writable (updateData now d)); [|discriminate].
  rewrite Hsel. cbn [map fst snd]. intros [= _ <-].
  rewrite (rows_set _ _ db _ Hset).
  rewrite select_map_set, Hsel. reflexivity.
Qed.

(* ------------------------------------------------------------------ *)
(** ** More on the credential verifier *)

Lemma authenticateToken_next (req req' : Request) :
  authenticateToken req = Next req' ->
  exists tk claims,
    bearer_token req = Some tk /\ tk <> ""
    /\ jwt_verify tk JWT_SECRET = Decoded claims
    /\ req' = set_user req (User.mk (userId claims) (jwt_role claims)).
Proof.
  unfold authenticateToken.
  destruct (bearer_token req) as [tk|]; [|discriminate].
  simpl. destruct (String.eqb_spec tk "") as [-> | Hne]; [discriminate|]. simpl.
  destruct (jwt_verify tk JWT_SECRET) as [claims|e] eqn:Hv.
  - intros [= <-]. exists tk, claims. auto.
  - destruct (instanceof_JsonWebTokenError e); discriminate.
Qed.

Lemma bearer_token_header (req : Request) (tk : string) :
  bearer_token req = Some tk -> tk <> "" ->
  exists h, authorization req = Some h /\ nth_error (JS.split " " h) 1 = Some tk.
Proof.
  unfold bearer_token, JS.and_then.
  destruct (authorization req) as [h|]; [|discriminate].
  destruct (String.eqb_spec h "") as [-> | _].
  - intros [= <-] Hne. contradiction.
  - intros H _. exists h. auto.
Qed.

(** X12.  The credential verifier passes a request on only with a
    verified token: if it calls [next], the request had an
    Authorization header whose second word is a non-empty token that
    [jwt.verify] decoded under the server's secret, and the request
    handed on is the incoming one with [user] replaced by the
    identity of that token's claims; every other field is the same. *)
Theorem authenticateToken_sound (req req' : Request) :
  authenticateToken req = Next req' ->
  exists h tk claims,
    authorization req = Some h
    /\ nth_error (JS.split " " h) 1 = Some tk
    /\ tk <> ""
    /\ jwt_verify tk JWT_SECRET = Decoded claims
    /\ req' = mkRequest (authorization req) (param_id req) (query req) (body req)
                (Some (User.mk (userId claims) (jwt_role claims))).
Proof.
  intros H. apply authenticateToken_next in H
    as (tk & claims & Htk & Hne & Hv & ->).
  destruct (bearer_token_header req tk Htk Hne) as (h & Hh & Hnth).
  exists h, tk, claims. auto.
Qed.

Lemma bearer_token_after_scheme (req : Request) (w rest : string) :
  mentions " " w = false ->
  bearer_token (with_authorization req (Some (w ++ " " ++ rest)))
  = nth_error (JS.split " " rest) 0.
Proof.
  intros Hw. unfold bearer_token, with_authorization, JS.and_then.
  cbn [authorization].
  assert (Hne : String.eqb (w ++ " " ++ rest) "" = false)
    by (destruct w; reflexivity).
  rewrite Hne. change (w ++ " " ++ rest) with (w ++ String " " rest).
  rewrite (split_head _ _ _ Hw). reflexivity.
Qed.

(** X13.  The verifier does not look at the scheme word of the
    Authorization header: two requests that differ only in the first
    word of the header (any words without a space, [Bearer] or not)
    get the same answer, or are both passed on with the same
    identity. *)
Theorem authenticateToken_ignores_scheme (req : Request) (w w' rest : string) :
  mentions " " w = false ->
  mentions " " w' = false ->
  match authenticateToken (with_authorization req (Some (w ++ " " ++ rest))),
        authenticateToken (with_authorization req (Some (w' ++ " " ++ rest)))
  with
  | Respond r, Respond r' => r = r'
  | Next q, Next q' => user q = user q'
  | _, _ => False
  end.
Proof.
  intros Hw Hw'. unfold authenticateToken.
  rewrite (bearer_token_after_scheme req w rest Hw).
  rewrite (bearer_token_after_scheme req w' rest Hw').
  destruct (nth_error (JS.split " " rest) 0) as [tk|]; [|reflexivity].
  destruct (JS.truthy (Some tk)); [|reflexivity].
  destruct (jwt_verify tk JWT_SECRET) as [claims|e]; [reflexivity|].
  destruct (instanceof_JsonWebTokenError e); reflexivity.
Qed.


(** X15.  Behind the verifier the gate never asks for authentication:
    for a request the verifier passed on, [requireAdmin] lets it
    through when the role claim of the token is [admin] and answers
    403 otherwise. *)
Theorem requireAdmin_after_authenticateToken (req req' : Request) :
  authenticateToken req = Next req' ->
  exists tk claims,
    jwt_verify tk JWT_SECRET = Decoded claims
    /\ requireAdmin req'
       = if String.eqb (jwt_role claims) "admin" then Next req'
         else Respond (Forbidden "Admin access required").
Proof.
  intros H. apply authenticateToken_next in H as (tk & claims & _ & _ & Hv & ->).
  exists tk, claims. split; [exact Hv|].
  unfold requireAdmin. cbn [user set_user User.role].
  destruct (String.eqb (jwt_role claims) "admin"); reflexivity.
Qed.

(* ------------------------------------------------------------------ *)
(** ** More on the search filter *)

Lemma matches_skip (p : list Sql.Token) (x : string) :
  Sql.matches p x = true -> Sql.matches (Sql.AnyRun :: p) x = true.
Proof. intros H. rewrite matches_run, H. reflexivity. Qed.

Lemma matches_drop (p : list Sql.Token) (c : ascii) (x : string) :
  Sql.matches (Sql.AnyRun :: p) x = true ->
  Sql.matches (Sql.AnyRun :: p) (String c x) = true.
Proof. intros H. rewrite matches_run, H. apply orb_true_r. Qed.

Lemma matches_run_mono (p p' : list Sql.Token) :
  (forall x, Sql.matches p x = true -> Sql.matches p' x = true) ->
  forall x, Sql.matches (Sql.AnyRun :: p) x = true ->
            Sql.matches (Sql.AnyRun :: p') x = true.
Proof.
  intros Hp x. induction x as [|c x IH].
  - rewrite (matches_run p ""), (matches_run p' ""), !orb_false_r. apply Hp.
  - rewrite (matches_run p (String c x)), (matches_run p' (String c x)).
    intros H. apply orb_true_iff in H as [H | H]; apply orb_true_iff.
    + left. now apply Hp.
    + right. now apply IH.
Qed.

Lemma tokens_no_escape (s rest : string) :
  mentions "\" s = false ->
  Sql.tokens (s ++ rest) = (Sql.tokens s ++ Sql.tokens rest)%list.
Proof.
  induction s as [|c s IH]; [reflexivity|].
  cbn [mentions]. intros H. apply orb_false_iff in H as [Hc Hs].
  cbn [append Sql.tokens]. rewrite Hc, (IH Hs).
  destruct (Ascii.eqb c "%"); [reflexivity|].
  destruct (Ascii.eqb c "_"); reflexivity.
Qed.

(** Read as a pattern, a string without backslash matches at least
    what it matches read literally. *)
Lemma tokens_generalise (s : string) (p p' : list Sql.Token) :
  mentions "\" s = false ->
  (forall x, Sql.matches p x = true -> Sql.matches p' x = true) ->
  forall x, Sql.matches (lits s ++ p) x = true ->
            Sql.matches (Sql.tokens s ++ p') x = true.
Proof.
  intros Hs Hp. induction s as [|c s IH]; [exact Hp|].
  cbn [mentions] in Hs. apply orb_false_iff in Hs as [Hc Hs].
  specialize (IH Hs). intros x.
  cbn [lits Sql.tokens]. rewrite Hc.
  destruct x as [|c' x]; [discriminate|].
  cbn [app Sql.matches]. intros H. apply andb_true_iff in H as [Hcc Hx].
  destruct (Ascii.eqb c "%").
  - cbn [app]. apply matches_drop, matches_skip, IH, Hx.
  - destruct (Ascii.eqb c "_"); cbn [app Sql.matches].
    + apply IH, Hx.
    + rewrite Hcc. apply IH, Hx.
Qed.

Lemma matches_lits_includes (s x : string) :
  Sql.matches (Sql.AnyRun :: lits s ++ [Sql.AnyRun]) x = JS.includes x s.
Proof.
  induction x as [|c x IH].
  - rewrite matches_run, matches_lits_run. simpl. now rewrite orb_false_r.
  - rewrite matches_run, matches_lits_run, IH. reflexivity.
Qed.

Lemma like_finds (s x : string) :
  mentions "\" s = false ->
  (exists a b, x = a ++ s ++ b) ->
  Sql.like x ("%" ++ s ++ "%") = true.
Proof.
  intros Hs Hsub. apply includes_spec in Hsub.
  rewrite <- matches_lits_includes in Hsub.
  unfold Sql.like.
  change ("%" ++ s ++ "%") with (String "%" (s ++ "%")).
  change (Sql.tokens (String "%" (s ++ "%")))
    with (Sql.AnyRun :: Sql.tokens (s ++ "%")).
  rewrite (tokens_no_escape s "%" Hs).
  change (Sql.tokens "%") with [Sql.AnyRun].
  revert Hsub. apply matches_run_mono.
  apply tokens_generalise; [exact Hs | auto].
Qed.

Lemma listed_get_tasks (req : Request) (db : Store) :
  listed (get_tasks req db)
  = if typed_filters (query req)
    then Sql.orderBy_desc_createdAt
           (Sql.select_where (where_clause (query req)) (rows db))
    else [].
Proof.
  unfold listed, get_tasks. rewrite run_select_where.
  destruct (typed_filters (query req)); reflexivity.
Qed.

(** X16.  The search never misses a literal occurrence: with [search]
    as the only filter and no backslash in it, every task whose title
    or description contains the search string is in the list GET
    [/api/tasks] answers with ([%] and [_] in the string can only add
    tasks). *)
Theorem search_finds_occurrences
  (req : Request) (db : Store) (t : Task.t) (s a b : string) :
  q_search (query req) = Some s ->
  s <> "" ->
  mentions "\" s = false ->
  JS.truthy (q_status (query req)) = false ->
  JS.truthy (q_priority (query req)) = false ->
  JS.truthy (q_projectId (query req)) = false ->
  JS.truthy (q_assignedTo (query req)) = false ->
  In t (rows db) ->
  Task.title t = a ++ s ++ b \/ Task.description t = Some (a ++ s ++ b) ->
  In t (listed (get_tasks req db)).
Proof.
  intros Hq Hne Hs H1 H2 H3 H4 Hin Hocc.
  assert (Hok : Sql.text_ok s = true).
  { destruct (texts_in_table db t Hin) as [Ht Hd].
    assert (Hall : Sql.text_ok (a ++ s ++ b) = true)
      by (destruct Hocc as [<- | Hocc]; [exact Ht | exact (Hd _ Hocc)]).
    rewrite !text_ok_append in Hall.
    apply andb_true_iff in Hall as [_ Hall].
    now apply andb_true_iff in Hall as [Hall _]. }
  rewrite listed_get_tasks. unfold typed_filters.
  rewrite !typed_falsy by assumption. cbn [andb].
  rewrite Hq. unfold typed. rewrite Hok.
  replace (if String.eqb s "" then true else true) with true
    by (now destruct (String.eqb s "")).
  eapply Permutation_in; [symmetry; apply orderBy_perm|].
  apply filter_In. split; [exact Hin|].
  apply selects_where_clause. unfold conditions.
  rewrite !push_if_falsy by assumption. cbn [app].
  apply Forall_push_if. intros s' [Hs' _]. rewrite Hq in Hs'.
  injection Hs' as <-. apply search_true.
  destruct Hocc as [Ht | Hd].
  - left. apply like_finds; [exact Hs | eauto].
  - right. eexists. split; [exact Hd|]. apply like_finds; [exact Hs | eauto].
Qed.

(* ------------------------------------------------------------------ *)
(** ** Answers and the table *)

(** X17.  Only a success writes rows: when POST does not answer 201
    the rows are exactly as before (the sequence is as before or one
    further: an insert refused for a foreign key has spent its id);
    when PUT or DELETE does not answer 200, the table and the sequence
    are exactly as before the request. *)
Theorem errors_change_nothing (now : Z) (req : Request) (db : Store) :
  (code (fst (post_task now req db)) <> 201 ->
   rows (snd (post_task now req db)) = rows db
   /\ next_id db <= next_id (snd (post_task now req db)) <= next_id db + 1)
  /\ (code (fst (put_task now req db)) <> 200 -> snd (put_task now req db) = db)
  /\ (code (fst (delete_task req db)) <> 200 -> snd (delete_task req db) = db).
Proof.
  split; [|split].
  - unfold post_task.
    destruct (createTaskSchema (body req)) as [d|issues];
      [|intros _; cbn [snd]; split; [reflexivity | lia]].
    destruct (user req) as [u|]; [|intros _; cbn [snd]; split; [reflexivity | lia]].
    fold (new_values d u).
    destruct (insert_returning_cases now (new_values d u) db)
      as [(-> & _) | (db' & -> & Hrows & Hnext & _)].
    + simpl. contradiction.
    + intros _. cbn [snd]. split; [exact Hrows|].
      destruct Hnext as [-> | ->]; lia.
  - unfold put_task.
    destruct (JS.isNaN (JS.parseInt (param_id req))); [reflexivity|].
    destruct (updateTaskSchema (body req)); [|reflexivity].
    destruct (Sql.run_select _ _) as [selected|]; [|reflexivity].
    destruct (Sql.limit 1 selected); [reflexivity|].
    destruct (run_update _ _ _) as [[table [|x returned]]|];
      [simpl; contradiction | simpl; contradiction | reflexivity].
  - unfold delete_task.
    destruct (JS.isNaN (JS.parseInt (param_id req))); [reflexivity|].
    destruct (Sql.run_select _ _) as [selected|]; [|reflexivity].
    destruct (Sql.limit 1 selected); [reflexivity|]. simpl. contradiction.
Qed.

Lemma sorted_head (l : list Task.t) (x : Task.t) :
  StronglySorted newer_first l ->
  In x l ->
  (forall y, In y l -> y = x \/ Task.createdAt y < Task.createdAt x) ->
  exists r, l = x :: r.
Proof.
  intros Hs Hin Hmax. destruct l as [|h r]; [contradiction|].
  destruct (Hmax h (or_introl eq_refl)) as [-> | Hlt]; [eauto|].
  destruct Hin as [-> | Hin]; [eauto|].
  inversion Hs as [|? ? _ Hall]; subst.
  rewrite Forall_forall in Hall. specialize (Hall x Hin).
  unfold newer_first in Hall. lia.
Qed.

(** X18.  A task just created heads the unfiltered list: when every
    row is older than the insert, the task POST [/api/tasks] answers
    with is the first of the list GET [/api/tasks] gives for the new
    table without filter parameters. *)
Theorem created_task_listed_first
  (now : Z) (req req' : Request) (db db' : Store) (msg : string) (task : Task.t) :
  (forall t, In t (rows db) -> Task.createdAt t < now) ->
  post_task now req db = (status_json 201 (MessageTaskBody msg task), db') ->
  no_filter (query req') ->
  exists l, listed (get_tasks req' db') = task :: l.
Proof.
  intros Hold Hpost Hq. unfold post_task in Hpost.
  destruct (createTaskSchema (body req)) as [d|issues]; [|discriminate].
  destruct (user req) as [u|]; [|discriminate].
  fold (new_values d u) in Hpost.
  destruct (insert_returning_cases now (new_values d u) db)
    as [(E & Hb & Hi & _) | (x & E & _)]; rewrite E in Hpost; [|discriminate].
  injection Hpost as _ <- <-.
  rewrite listed_get_tasks, (no_filter_typed _ Hq), (no_filter_where _ Hq).
  rewrite (rows_appended db _ _ (new_row_typed now _ _ Hb Hi)).
  unfold Sql.select_where.
  rewrite filter_all by reflexivity.
  apply sorted_head.
  - apply orderBy_sorted.
  - eapply Permutation_in; [symmetry; apply orderBy_perm|].
    apply in_or_app. right. now left.
  - intros y Hy. eapply Permutation_in in Hy; [|apply orderBy_perm].
    apply in_app_or in Hy as [Hy | [<- | []]]; [right | left; reflexivity].
    cbn [new_row Task.createdAt]. exact (Hold y Hy).
Qed.

(* ------------------------------------------------------------------ *)
(** ** The [:id] parameter *)

Lemma digits_stop (R : Z) (rest : string) (acc : option Z) :
  (rest = ""
   \/ exists c r, rest = String c r
                  /\ match JS.digitValue c with
                     | Some d => d <? R
                     | None => false
                     end = false) ->
  forall s, JS.digits R (s ++ rest) acc = JS.digits R s acc.
Proof.
  intros Hrest s. revert acc. induction s as [|c s IH]; intros acc.
  - cbn [append JS.digits]. destruct Hrest as [-> | (c & r & -> & Hc)];
      [reflexivity|].
    cbn [JS.digits]. destruct (JS.digitValue c) as [d|]; [|reflexivity].
    now rewrite Hc.
  - cbn [append JS.digits]. destruct (JS.digitValue c) as [d|]; [|reflexivity].
    destruct (d <? R); [apply IH | reflexivity].
Qed.

Lemma decimal_digit_cases (c : ascii) :
  decimal_digit c = true ->
  JS.isWhiteSpace c = false /\ Ascii.eqb c "-" = false /\ Ascii.eqb c "+" = false
  /\ Ascii.eqb c "x" = false /\ Ascii.eqb c "X" = false.
Proof.
  destruct c as [[] [] [] [] [] [] [] []]; vm_compute; intros H;
    solve [discriminate | auto].
Qed.

Lemma parseInt_decimal (c : ascii) (s : string) :
  decimal_digit c = true ->
  (match s with
   | String c' _ => Ascii.eqb c' "x" || Ascii.eqb c' "X"
   | EmptyString => false
   end = false) ->
  JS.parseInt (String c s)
  = match JS.digits 10 (String c s) None with
    | Some m => JS.Int (1 * m)
    | None => JS.NaN
    end.
Proof.
  intros Hc Hx.
  destruct (decimal_digit_cases c Hc) as (Hw & Hm & Hp & _).
  unfold JS.parseInt. cbn [JS.trimStart]. rewrite Hw.
  assert (E1 : match String c s with
               | String "-" r => (-1, r)
               | String "+" r => (1, r)
               | _ => (1, String c s)
               end = (1, String c s)).
  { clear Hc Hw Hx.
    destruct c as [[] [] [] [] [] [] [] []]; try reflexivity;
      vm_compute in Hm, Hp; discriminate. }
  rewrite E1.
  assert (E2 : match String c s with
               | String "0" (String "x" r) => (16, r)
               | String "0" (String "X" r) => (16, r)
               | _ => (10, String c s)
               end = (10, String c s)).
  { destruct s as [|c' s']; [destruct c as [[] [] [] [] [] [] [] []]; reflexivity|].
    apply orb_false_iff in Hx as [Hx1 Hx2]. clear Hc Hw Hm Hp E1.
    destruct c as [[] [] [] [] [] [] [] []]; try reflexivity;
      destruct c' as [[] [] [] [] [] [] [] []]; try reflexivity;
      vm_compute in Hx1, Hx2; discriminate. }
  rewrite E2. reflexivity.
Qed.

(** X19.  Only the leading digits of [:id] count: for an id made of
    decimal digits followed by anything that does not begin with a
    digit or with [x], [parseInt] gives the number of the digits, so
    GET and DELETE on [/api/tasks/12abc] do what they do on
    [/api/tasks/12]. *)
Theorem id_trailing_characters_ignored
  (req req' : Request) (db : Store) (ds rest : string) :
  ds <> "" ->
  decimal_digits ds = true ->
  trailing rest = true ->
  param_id req = ds ++ rest ->
  param_id req' = ds ->
  JS.parseInt (ds ++ rest) = JS.parseInt ds
  /\ JS.parseInt ds <> JS.NaN
  /\ get_task req db = get_task req' db
  /\ delete_task req db = delete_task req' db.
Proof.
  intros Hne Hds Hrest Hp Hp'.
  destruct ds as [|c ds]; [contradiction|].
  cbn [decimal_digits] in Hds. apply andb_true_iff in Hds as [Hc Hds].
  assert (Hstop : rest = ""
                  \/ exists c' r, rest = String c' r
                       /\ match JS.digitValue c' with
                          | Some d => d <? 10
                          | None => false
                          end = false).
  { destruct rest as [|c' r]; [now left|]. right. exists c', r.
    split; [reflexivity|]. cbn [trailing] in Hrest.
    apply andb_true_iff in Hrest as [Hrest _].
    apply andb_true_iff in Hrest as [Hrest _].
    now apply negb_true_iff in Hrest. }
  assert (Hx : match ds ++ rest with
               | String c' _ => Ascii.eqb c' "x" || Ascii.eqb c' "X"
               | EmptyString => false
               end = false).
  { destruct ds as [|c' ds'].
    - destruct rest as [|c' r]; [reflexivity|]. cbn [append trailing] in *.
      apply andb_true_iff in Hrest as [Hrest HX].
      apply andb_true_iff in Hrest as [_ Hx].
      apply negb_true_iff in Hx, HX. now rewrite Hx, HX.
    - cbn [append]. cbn [decimal_digits] in Hds.
      apply andb_true_iff in Hds as [Hc' _].
      destruct (decimal_digit_cases c' Hc') as (_ & _ & _ & -> & ->). reflexivity. }
  assert (Hx' : match ds with
                | String c' _ => Ascii.eqb c' "x" || Ascii.eqb c' "X"
                | EmptyString => false
                end = false).
  { destruct ds as [|c' ds']; [reflexivity|]. cbn [decimal_digits] in Hds.
    apply andb_true_iff in Hds as [Hc' _].
    destruct (decimal_digit_cases c' Hc') as (_ & _ & _ & -> & ->). reflexivity. }
  assert (E : JS.parseInt (String c ds ++ rest) = JS.parseInt (String c ds)).
  { cbn [append]. rewrite (parseInt_decimal c (ds ++ rest) Hc Hx).
    rewrite (parseInt_decimal c ds Hc Hx').
    change (String c (ds ++ rest)) with (String c ds ++ rest).
    now rewrite (digits_stop 10 rest None Hstop). }
  assert (N : JS.parseInt (String c ds) <> JS.NaN).
  { rewrite (parseInt_decimal c ds Hc Hx'). cbn [JS.digits].
    unfold decimal_digit in Hc. destruct (JS.digitValue c) as [d|]; [|discriminate].
    rewrite Hc.
    assert (Hsome : forall s a, exists m, JS.digits 10 s (Some a) = Some m).
    { induction s as [|c0 s IH]; intros a; cbn [JS.digits]; [eauto|].
      destruct (JS.digitValue c0) as [d0|]; [|eauto].
      destruct (d0 <? 10); [apply IH | eauto]. }
    destruct (Hsome ds (0 * 10 + d)) as [m ->]. discriminate. }
  split; [exact E|]. split; [exact N|].
  unfold get_task, delete_task. rewrite Hp, Hp', E. split; reflexivity.
Qed.

(* ------------------------------------------------------------------ *)
(** ** Filters narrow, and what an update accepts *)

Lemma push_if_narrow (P : Sql.Cond -> Prop) (v v' : option string)
  (c : string -> Sql.Cond) :
  (JS.truthy v = true -> v' = v) ->
  Forall P (push_if v' c) -> Forall P (push_if v c).
Proof.
  intros Hv H. destruct (JS.truthy v) eqn:Ht.
  - now rewrite <- (Hv eq_refl).
  - rewrite (push_if_falsy v c Ht). constructor.
Qed.

Lemma listed_iff (req : Request) (db : Store) (t : Task.t) :
  In t (listed (get_tasks req db))
  <-> typed_filters (query req) = true
      /\ In t (rows db) /\ Sql.selects (where_clause (query req)) t = true.
Proof.
  rewrite listed_get_tasks. destruct (typed_filters (query req)).
  - rewrite <- filter_In. split.
    + intros H. split; [reflexivity|].
      eapply Permutation_in; [apply orderBy_perm | exact H].
    + intros [_ H]. eapply Permutation_in; [symmetry; apply orderBy_perm | exact H].
  - split; [intros [] | intros [H _]; discriminate].
Qed.

Lemma typed_narrow (v v' : option string) (ok : string -> bool) :
  (JS.truthy v = true -> v' = v) -> typed v' ok = true -> typed v ok = true.
Proof.
  intros Hv H. destruct (JS.truthy v) eqn:Ht.
  - now rewrite <- (Hv eq_refl).
  - now apply typed_falsy.
Qed.

(** X20.  Filters only narrow: if a request provides every filter
    parameter another request provides, with the same value, and
    possibly more, each task GET [/api/tasks] lists for it is also
    listed for the other. *)
Theorem filters_narrow (req req' : Request) (db : Store) (t : Task.t) :
  narrows (query req) (query req') ->
  In t (listed (get_tasks req' db)) ->
  In t (listed (get_tasks req db)).
Proof.
  intros (H1 & H2 & H3 & H4 & H5). rewrite !listed_iff.
  intros (Hty & Hin & Hsel). split; [|split; [exact Hin|]].
  - unfold typed_filters in *.
    apply andb_true_iff in Hty as [Hty T5].
    apply andb_true_iff in Hty as [Hty T4].
    apply andb_true_iff in Hty as [Hty T3].
    apply andb_true_iff in Hty as [T1 T2].
    rewrite (typed_narrow _ _ _ H1 T1), (typed_narrow _ _ _ H2 T2),
      (typed_narrow _ _ _ H3 T3), (typed_narrow _ _ _ H4 T4),
      (typed_narrow _ _ _ H5 T5).
    reflexivity.
  - apply selects_where_clause. apply selects_where_clause in Hsel.
    unfold conditions in *. rewrite !Forall_app in *.
    destruct Hsel as (S1 & S2 & S3 & S4 & S5).
    repeat split; eapply push_if_narrow; eassumption.
Qed.

Lemma accepted_updatable (o : list (string * json)) (d : UpdateTask) :
  updateTaskSchema (JObj o) = Zod.Valid d -> updatable o.
Proof.
  intros H. destruct (accepted_fields o d H) as (Ft & Fde & Fs & Fp & Fa & Fd).
  unfold updatable. repeat split.
  - apply optional_valid in Ft as [[Hn _] | (j & s & Hj & Hs & _)]; [auto|].
    rewrite <- Hj in Hs. apply min1_valid in Hs as [Hs Hne]. eauto.
  - apply optional_valid in Fde as [[Hn _] | (j & s & Hj & Hs & _)]; [auto|].
    apply string_valid in Hs as ->. eauto.
  - apply optional_valid in Fs as [[Hn _] | (j & s & Hj & Hs & _)]; [auto|].
    apply enum_valid in Hs as (n & -> & Hn).
    apply assoc_statuses in Hn as <-. eauto.
  - apply optional_valid in Fp as [[Hn _] | (j & s & Hj & Hs & _)]; [auto|].
    apply enum_valid in Hs as (n & -> & Hn).
    apply assoc_priorities in Hn as <-. eauto.
  - apply optional_valid in Fa as [[Hn _] | (j & z & Hj & Hz & _)]; [auto|].
    apply positive_int_valid in Hz as [-> Hpos]. eauto.
  - apply optional_valid in Fd as [[Hn _] | (j & s & Hj & Hs & _)]; [auto|].
    apply datetime_valid in Hs as [-> Hok]. eauto.
Qed.

Lemma updatable_accepted (o : list (string * json)) :
  updatable o -> exists d, updateTaskSchema (JObj o) = Zod.Valid d.
Proof.
  intros (Ht & Hde & Hs & Hp & Ha & Hd).
  assert (F1 : exists x, Zod.field o "title" (Zod.optional (Zod.min 1 Zod.string_))
                         = Zod.Valid x).
  { unfold Zod.field. destruct Ht as [-> | (s & -> & Hne)]; [eexists; reflexivity|].
    destruct s; [contradiction | eexists; reflexivity]. }
  assert (F2 : exists x, Zod.field o "description" (Zod.optional Zod.string_)
                         = Zod.Valid x).
  { unfold Zod.field. destruct Hde as [-> | [s ->]]; eexists; reflexivity. }
  assert (F3 : exists x, Zod.field o "status" (Zod.optional (Zod.enum statuses))
                         = Zod.Valid x).
  { unfold Zod.field. destruct Hs as [-> | [st ->]]; [eexists; reflexivity|].
    exists (Some st). destruct st; reflexivity. }
  assert (F4 : exists x, Zod.field o "priority" (Zod.optional (Zod.enum priorities))
                         = Zod.Valid x).
  { unfold Zod.field. destruct Hp as [-> | [p ->]]; [eexists; reflexivity|].
    exists (Some p). destruct p; reflexivity. }
  assert (F5 : exists x, Zod.field o "assignedTo"
                 (Zod.optional (Zod.positive (Zod.int Zod.number)))
               = Zod.Valid x).
  { unfold Zod.field. destruct Ha as [-> | (a & -> & Hap)]; [eexists; reflexivity|].
    cbn -[Z.ltb]. apply Z.ltb_lt in Hap. rewrite Hap. eexists; reflexivity. }
  assert (F6 : exists x, Zod.field o "dueDate"
                 (Zod.optional (Zod.datetime datetime_ok Zod.string_))
               = Zod.Valid x).
  { unfold Zod.field. destruct Hd as [-> | (s & -> & Hok)]; [eexists; reflexivity|].
    unfold Zod.optional, Zod.datetime, Zod.string_. rewrite Hok.
    eexists; reflexivity. }
  destruct F1 as [x1 F1], F2 as [x2 F2], F3 as [x3 F3], F4 as [x4 F4],
    F5 as [x5 F5], F6 as [x6 F6].
  unfold updateTaskSchema. rewrite F1, F2, F3, F4, F5, F6.
  eexists. reflexivity.
Qed.

(** X21.  With a numeric id, PUT [/api/tasks/:id] answers 400
    (ValidationError) exactly when the body is not an object in which
    every key of the update schema that is present is well-typed: a
    non-empty string [title], a string [description], a [status] and a
    [priority] of the enumerations, a positive integer [assignedTo], a
    date-time string [dueDate].  No key is required. *)
Theorem put_task_rejects_exactly
  (now : Z) (req : Request) (db : Store) (taskId : Z) :
  JS.parseInt (param_id req) = JS.Int taskId ->
  ((exists issues, put_task now req db = (ValidationError issues, db))
   <-> ~ (exists o, body req = JObj o /\ updatable o)).
Proof.
  intros Hid. unfold put_task. rewrite Hid. simpl JS.isNaN. cbv iota. split.
  - intros [issues H] (o & Hb & Hu). rewrite Hb in H.
    destruct (updatable_accepted o Hu) as [d Hd]. rewrite Hd in H.
    destruct (Sql.run_select _ _) as [selected|]; [|discriminate].
    destruct (Sql.limit 1 selected); [discriminate|].
    destruct (run_update _ _ _) as [[table [|x returned]]|]; discriminate.
  - intros Hno.
    destruct (updateTaskSchema (body req)) as [d|issues] eqn:Hd.
    + exfalso. apply Hno.
      destruct (update_is_object _ _ Hd) as [o Hb]. rewrite Hb in Hd.
      exists o. split; [exact Hb|]. exact (accepted_updatable o d Hd).
    + exists issues. reflexivity.
Qed.

End Server.

(* ------------------------------------------------------------------ *)
(** ** The scenarios of the specification *)

Example parseInt_digits : JS.parseInt "42" = JS.Int 42.
Proof. reflexivity. Qed.

Example parseInt_prefix : JS.parseInt "12abc" = JS.Int 12.
Proof. reflexivity. Qed.

Example parseInt_sign_space : JS.parseInt "  -7" = JS.Int (-7).
Proof. reflexivity. Qed.

Example parseInt_hex : JS.parseInt "0x1f" = JS.Int 31.
Proof. reflexivity. Qed.

Example parseInt_letters : JS.parseInt "abc" = JS.NaN.
Proof. reflexivity. Qed.

Example parseInt_empty : JS.parseInt "" = JS.NaN.
Proof. reflexivity. Qed.

Example split_bearer : JS.split " " "Bearer abc.def" = ["Bearer"; "abc.def"].
Proof. reflexivity. Qed.

Example like_feature : Sql.like "Implement feature X" "%feature%" = true.
Proof. reflexivity. Qed.

Example like_xyz : Sql.like "Implement feature X" "%xyz123%" = false.
Proof. reflexivity. Qed.

Example like_is_case_sensitive : Sql.like "Implement feature X" "%FEATURE%" = false.
Proof. reflexivity. Qed.

Example like_escaped_percent : Sql.like "100% done" "%\%%" = true.
Proof. reflexivity. Qed.

(** Create [{title: "Fix bug", projectId: 5}] as user 7. *)
Example scenario_create :
  post_task Demo.is_datetime Demo.to_ms Demo.is_project Demo.is_user Demo.in_range 300
    (Demo.as_user Demo.alice "" Demo.no_query Demo.fix_bug) Demo.db
  = (status_json 201
       (MessageTaskBody "Task created successfully"
          (Task.mk 3 "Fix bug" None todo medium 5 None 7 None 300 300)),
     mkStore [Demo.task1; Demo.task2;
              Task.mk 3 "Fix bug" None todo medium 5 None 7 None 300 300] 4).
Proof. reflexivity. Qed.

(** [PUT /api/tasks/999] with [{status: "done"}] on a table without
    task 999. *)
(** A number reports each check it fails: [-1.5] is neither an
    integer nor positive. *)
Example scenario_negative_fraction :
  post_task Demo.is_datetime Demo.to_ms Demo.is_project Demo.is_user Demo.in_range 300
    (Demo.as_user Demo.alice "" Demo.no_query
       (JObj [("title", JStr ""); ("projectId", JFraction false)]))
    Demo.db
  = (ValidationError ["title"; "projectId"; "projectId"], Demo.db).
Proof. reflexivity. Qed.

Example scenario_put_999 :
  put_task Demo.is_datetime Demo.to_ms Demo.is_user Demo.in_range 300
    (Demo.as_user Demo.alice "999" Demo.no_query (JObj [("status", JStr "done")]))
    Demo.db
  = (status_json 404 (ErrorBody "Task not found"), Demo.db).
Proof. reflexivity. Qed.

(** No [Authorization] header on [GET /api/tasks]. *)
Example scenario_no_header :
  code (fst (protected Demo.verify Demo.secret get_tasks
               (Demo.request None "" Demo.no_query JNull) Demo.db)) = 401.
Proof. reflexivity. Qed.

(** A token the verifier rejects. *)
Example scenario_tampered :
  code (fst (protected Demo.verify Demo.secret get_tasks
               (Demo.request (Some "Bearer al1ce") "" Demo.no_query JNull) Demo.db))
  = 403.
Proof. reflexivity. Qed.

(** Statuses todo and done, no filter: both, newest first. *)
Example scenario_list_all :
  fst (protected Demo.verify Demo.secret get_tasks
         (Demo.request (Some "Bearer alice") "" Demo.no_query JNull) Demo.db)
  = res_json (TaskListBody [Demo.task2; Demo.task1] 2).
Proof. reflexivity. Qed.

(** [status=done]: the done task only. *)
Example scenario_list_done :
  fst (get_tasks
         (Demo.as_user Demo.alice "" (mkQuery (Some "done") None None None None) JNull)
         Demo.db)
  = res_json (TaskListBody [Demo.task2] 1).
Proof. reflexivity. Qed.

(** An update that names [createdBy] and [projectId]: both keep their
    values. *)
Example scenario_put_createdBy :
  fst (put_task Demo.is_datetime Demo.to_ms Demo.is_user Demo.in_range 300
         (Demo.as_user Demo.alice "1" Demo.no_query
            (JObj [("createdBy", JNum 99); ("projectId", JNum 8);
                   ("priority", JStr "low")]))
         Demo.db)
  = res_json (MessageTaskBody "Task updated successfully"
                (Task.mk 1 "Implement feature X" None todo low 5 (Some 7) 7 None 100 300)).
Proof. reflexivity. Qed.

(* ------------------------------------------------------------------ *)
(** ** The statements at concrete requests *)

Lemma authenticateToken_outcomes_witness :
  authenticateToken Demo.verify Demo.secret
    (Demo.request (Some "Bearer alice") "" Demo.no_query JNull)
  = Next (mkRequest (Some "Bearer alice") "" Demo.no_query JNull (Some Demo.alice))
  /\ authenticateToken Demo.verify Demo.secret
       (Demo.request (Some "Bearer") "" Demo.no_query JNull)
     = Respond (Unauthenticated "Access token required")
  /\ authenticateToken Demo.verify Demo.secret
       (Demo.request None "" Demo.no_query JNull)
     = Respond (Unauthenticated "Access token required").
Proof.
  split; [|split].
  - destruct (authenticateToken_outcomes Demo.verify Demo.secret
                (Demo.request (Some "Bearer alice") "" Demo.no_query JNull))
      as (_ & _ & H).
    exact (H "Bearer" "alice" "" eq_refl eq_refl eq_refl (or_introl eq_refl)).
  - destruct (authenticateToken_outcomes Demo.verify Demo.secret
                (Demo.request (Some "Bearer") "" Demo.no_query JNull))
      as (_ & H & _).
    exact (H "Bearer" eq_refl eq_refl).
  - destruct (authenticateToken_outcomes Demo.verify Demo.secret
                (Demo.request None "" Demo.no_query JNull))
      as (H & _).
    exact (H eq_refl).
Defined.

Lemma requireAdmin_outcomes_witness :
  requireAdmin (Demo.as_user Demo.alice "" Demo.no_query JNull)
  = Respond (Forbidden "Admin access required")
  /\ requireAdmin (Demo.request None "" Demo.no_query JNull)
     = Respond (Unauthenticated "Authentication required")
  /\ exists req', requireAdmin (Demo.as_user Demo.root "" Demo.no_query JNull) = Next req'.
Proof.
  split; [|split].
  - destruct (requireAdmin_outcomes (Demo.as_user Demo.alice "" Demo.no_query JNull))
      as (_ & H & _).
    apply (H Demo.alice eq_refl). discriminate.
  - destruct (requireAdmin_outcomes (Demo.request None "" Demo.no_query JNull))
      as (_ & _ & H).
    exact (H eq_refl).
  - destruct (requireAdmin_outcomes (Demo.as_user Demo.root "" Demo.no_query JNull))
      as ([_ H] & _).
    apply H. exists Demo.root. split; reflexivity.
Defined.

Lemma invalid_id_is_400_witness :
  JS.parseInt "abc" = JS.NaN
  /\ get_task (Demo.as_user Demo.alice "abc" Demo.no_query JNull) Demo.db
     = (InvalidTaskId, Demo.db)
  /\ put_task Demo.is_datetime Demo.to_ms Demo.is_user Demo.in_range 300
       (Demo.as_user Demo.alice "abc" Demo.no_query JNull) Demo.db
     = (InvalidTaskId, Demo.db)
  /\ delete_task (Demo.as_user Demo.alice "abc" Demo.no_query JNull) Demo.db
     = (InvalidTaskId, Demo.db).
Proof.
  split; [reflexivity|].
  apply (invalid_id_is_400 Demo.is_datetime Demo.to_ms Demo.is_user Demo.in_range 300
           (Demo.as_user Demo.alice "abc" Demo.no_query JNull) Demo.db).
  reflexivity.
Defined.

Lemma demo_absent_999 : absent 999 Demo.db.
Proof.
  intros t [<- | [<- | []]]; discriminate.
Defined.

Lemma put_validates_before_lookup_witness :
  put_task Demo.is_datetime Demo.to_ms Demo.is_user Demo.in_range 300
    (Demo.as_user Demo.alice "999" Demo.no_query (JObj [("status", JStr "finished")]))
    Demo.db
  = (ValidationError ["status"], Demo.db)
  /\ fst (put_task Demo.is_datetime Demo.to_ms Demo.is_user Demo.in_range 300
            (Demo.as_user Demo.alice "999" Demo.no_query
               (JObj [("status", JStr "finished")]))
            Demo.db)
     <> NotFound.
Proof.
  apply (put_validates_before_lookup Demo.is_datetime Demo.to_ms Demo.is_user Demo.in_range 300
           (Demo.as_user Demo.alice "999" Demo.no_query
              (JObj [("status", JStr "finished")]))
           Demo.db 999 ["status"]).
  - reflexivity.
  - exact demo_absent_999.
  - reflexivity.
Defined.

Lemma absent_id_outcomes_witness :
  get_task (Demo.as_user Demo.alice "999" Demo.no_query (JObj [])) Demo.db
  = (NotFound, Demo.db)
  /\ delete_task (Demo.as_user Demo.alice "999" Demo.no_query (JObj [])) Demo.db
     = (NotFound, Demo.db)
  /\ put_task Demo.is_datetime Demo.to_ms Demo.is_user Demo.in_range 300
       (Demo.as_user Demo.alice "999" Demo.no_query (JObj [])) Demo.db
     = (NotFound, Demo.db).
Proof.
  destruct (absent_id_outcomes Demo.is_datetime Demo.to_ms Demo.is_project
              Demo.is_user Demo.in_range 300
              (Demo.as_user Demo.alice "999" Demo.no_query (JObj []))
              Demo.db 999 eq_refl demo_absent_999)
    as (Hin & _).
  destruct (Hin eq_refl) as (Hget & Hdel & Hput).
  split; [exact Hget|]. split; [exact Hdel|].
  exact (Hput (mkUpdateTask None None None None None None) eq_refl).
Defined.


Lemma demo_others_not_1 :
  forall r, In r ([] ++ [Demo.task2])%list -> Task.id r <> 1.
Proof.
  intros r [<- | []]. discriminate.
Defined.

Lemma put_overwrites_present_fields_witness :
  put_task Demo.is_datetime Demo.to_ms Demo.is_user Demo.in_range 300
    (Demo.as_user Demo.alice "1" Demo.no_query
       (JObj [("status", JStr "review"); ("dueDate", JStr "2024-05-01T10:00:00Z");
              ("createdBy", JNum 99)]))
    Demo.db
  = (res_json
       (MessageTaskBody "Task updated successfully"
          (Task.mk 1 "Implement feature X" None review high 5 (Some 7) 7
             (Some 1714557600000) 100 300)),
     mkStore [Task.mk 1 "Implement feature X" None review high 5 (Some 7) 7
                (Some 1714557600000) 100 300;
              Demo.task2] 3).
Proof.
  exact (proj1 (put_overwrites_present_fields Demo.is_datetime Demo.to_ms
                  Demo.is_user Demo.in_range 300
                  (Demo.as_user Demo.alice "1" Demo.no_query
                     (JObj [("status", JStr "review");
                            ("dueDate", JStr "2024-05-01T10:00:00Z");
                            ("createdBy", JNum 99)]))
                  Demo.db 1
                  [("status", JStr "review");
                   ("dueDate", JStr "2024-05-01T10:00:00Z");
                   ("createdBy", JNum 99)]
                  (mkUpdateTask None None (Some review) None None
                     (Some "2024-05-01T10:00:00Z"))
                  [] [Demo.task2] Demo.task1
                  eq_refl eq_refl eq_refl eq_refl eq_refl eq_refl
                  demo_others_not_1)
           eq_refl).
Defined.

Lemma get_tasks_ordered_and_counted_witness :
  (exists taskList,
     get_tasks (Demo.as_user Demo.alice "" Demo.no_query JNull) Demo.db
     = (res_json (TaskListBody taskList (List.length taskList)), Demo.db)
     /\ StronglySorted newer_first taskList
     /\ Permutation taskList (rows Demo.db))
  /\ get_tasks
       (Demo.as_user Demo.alice "" (mkQuery (Some "finished") None None None None)
          JNull)
       Demo.db
     = (InternalError "Failed to fetch tasks", Demo.db).
Proof.
  split.
  - apply (proj1 (proj2 (get_tasks_ordered_and_counted
                           (Demo.as_user Demo.alice "" Demo.no_query JNull)
                           Demo.db))).
    repeat split.
  - apply (proj1 (proj2 (proj2 (proj2 (get_tasks_ordered_and_counted
                           (Demo.as_user Demo.alice ""
                              (mkQuery (Some "finished") None None None None) JNull)
                           Demo.db))))).
    reflexivity.
Defined.

Lemma where_clause_meaning_witness :
  Sql.selects (where_clause (mkQuery (Some "todo") None (Some "5") None (Some "feature")))
    Demo.task1 = true
  /\ Sql.like "Implement feature X" "%feature%" = true.
Proof.
  split.
  - apply (proj1 (where_clause_meaning
                    (mkQuery (Some "todo") None (Some "5") None (Some "feature"))
                    Demo.task1)).
    repeat split.
    + intros s [[= <-] _]. reflexivity.
    + intros s [[=] _].
    + intros s [[= <-] _]. reflexivity.
    + intros s [[=] _].
    + intros s [[= <-] _]. left. reflexivity.
  - apply (proj2 (where_clause_meaning Demo.no_query Demo.task1)
             "feature" "Implement feature X" eq_refl).
    exists "Implement ", " X". reflexivity.
Defined.

(* ------------------------------------------------------------------ *)
(** ** Where the code departs from the specification's wording *)

(** C2.  A search string is a [LIKE] pattern, not a plain substring:
    [search=_] selects a task although neither its title nor its
    description contains an underscore. *)
Lemma search_underscore_selects_without_substring :
  Sql.selects (where_clause (mkQuery None None None None (Some "_"))) Demo.task1 = true
  /\ ~ (exists a b, Task.title Demo.task1 = a ++ "_" ++ b)
  /\ Task.description Demo.task1 = None.
Proof.
  split; [reflexivity|]. split; [|reflexivity].
  intros H. apply includes_spec in H. discriminate H.
Qed.

(** C5.  A PUT on an id that no row has is answered 400, not 404, when
    its body does not satisfy the update schema; and a GET on an id
    that no row has is answered 500, not 404, when the id does not fit
    the 32 bits of the id column. *)
Lemma put_absent_id_invalid_body_is_400 :
  JS.parseInt "999" = JS.Int 999
  /\ absent 999 Demo.db
  /\ put_task Demo.is_datetime Demo.to_ms Demo.is_user Demo.in_range 300
       (Demo.as_user Demo.alice "999" Demo.no_query (JObj [("status", JStr "finished")]))
       Demo.db
     = (ValidationError ["status"], Demo.db)
  /\ fst (put_task Demo.is_datetime Demo.to_ms Demo.is_user Demo.in_range 300
            (Demo.as_user Demo.alice "999" Demo.no_query
               (JObj [("status", JStr "finished")]))
            Demo.db)
     <> NotFound
  /\ JS.parseInt "99999999999" = JS.Int 99999999999
  /\ absent 99999999999 Demo.db
  /\ get_task (Demo.as_user Demo.alice "99999999999" Demo.no_query JNull) Demo.db
     = (InternalError "Failed to fetch task", Demo.db).
Proof.
  split; [reflexivity|]. split; [exact demo_absent_999|].
  split; [reflexivity|]. split; [discriminate|].
  split; [reflexivity|]. split; [|reflexivity].
  intros t [<- | [<- | []]]; discriminate.
Qed.

(** C6.  A body the update schema accepts need not be written: PUT on
    an existing task with an assignee beyond 32 bits, or with an
    assignee that is no user, is answered 500, and the task keeps
    every field, [updatedAt] included. *)
Lemma put_valid_body_not_written :
  updateTaskSchema Demo.is_datetime (JObj [("assignedTo", JNum 2147483648)])
  = Zod.Valid (mkUpdateTask None None None None (Some 2147483648) None)
  /\ In Demo.task1 (rows Demo.db)
  /\ JS.parseInt "1" = JS.Int (Task.id Demo.task1)
  /\ put_task Demo.is_datetime Demo.to_ms Demo.is_user Demo.in_range 300
       (Demo.as_user Demo.alice "1" Demo.no_query
          (JObj [("assignedTo", JNum 2147483648)]))
       Demo.db
     = (InternalError "Failed to update task", Demo.db)
  /\ updateTaskSchema Demo.is_datetime (JObj [("assignedTo", JNum 2)])
     = Zod.Valid (mkUpdateTask None None None None (Some 2) None)
  /\ Demo.is_user 2 = false
  /\ put_task Demo.is_datetime Demo.to_ms Demo.is_user Demo.in_range 300
       (Demo.as_user Demo.alice "1" Demo.no_query (JObj [("assignedTo", JNum 2)]))
       Demo.db
     = (InternalError "Failed to update task", Demo.db).
Proof.
  split; [reflexivity|]. split; [now left|]. repeat split; reflexivity.
Qed.

(* ------------------------------------------------------------------ *)
(** ** The further statements at concrete requests *)

Lemma demo_well_keyed : well_keyed Demo.db.
Proof.
  split.
  - simpl. constructor; [intros [H | []]; discriminate|].
    constructor; [intros []|]. constructor.
  - intros t [<- | [<- | []]]; reflexivity.
Defined.

Lemma demo_well_formed : Forall well_formed (rows Demo.db).
Proof.
  repeat constructor; try discriminate.
  intros a [= <-]. reflexivity.
Defined.


Lemma post_task_rejects_exactly_witness :
  exists issues,
    post_task Demo.is_datetime Demo.to_ms Demo.is_project Demo.is_user Demo.in_range 300
      (Demo.as_user Demo.alice "" Demo.no_query (JArr [])) Demo.db
    = (ValidationError issues, Demo.db).
Proof.
  apply (proj2 (post_task_rejects_exactly Demo.is_datetime Demo.to_ms Demo.is_project Demo.is_user Demo.in_range 300
                  (Demo.as_user Demo.alice "" Demo.no_query (JArr [])) Demo.db)).
  intros (o & Hb & _). discriminate Hb.
Defined.

Lemma rows_stay_well_formed_witness :
  Forall well_formed
    (rows (snd (put_task Demo.is_datetime Demo.to_ms Demo.is_user Demo.in_range 300
                  (Demo.as_user Demo.alice "1" Demo.no_query
                     (JObj [("title", JStr "Ship it")]))
                  Demo.db))).
Proof.
  exact (proj1 (proj2 (rows_stay_well_formed Demo.is_datetime Demo.to_ms Demo.is_project Demo.is_user Demo.in_range 300
                         (Demo.as_user Demo.alice "1" Demo.no_query
                            (JObj [("title", JStr "Ship it")]))
                         Demo.db demo_well_formed))).
Defined.

Lemma table_stays_well_keyed_witness :
  well_keyed (snd (post_task Demo.is_datetime Demo.to_ms Demo.is_project Demo.is_user Demo.in_range 300
                     (Demo.as_user Demo.alice "" Demo.no_query Demo.fix_bug)
                     Demo.db)).
Proof.
  exact (proj1 (table_stays_well_keyed Demo.is_datetime Demo.to_ms Demo.is_project Demo.is_user Demo.in_range 300
                  (Demo.as_user Demo.alice "" Demo.no_query Demo.fix_bug)
                  Demo.db demo_well_keyed)).
Defined.

Lemma get_task_finds_witness :
  get_task (Demo.as_user Demo.alice "2" Demo.no_query JNull) Demo.db
  = (res_json (TaskBody Demo.task2), Demo.db).
Proof.
  apply (get_task_finds (Demo.as_user Demo.alice "2" Demo.no_query JNull)
           Demo.db Demo.task2 (proj1 demo_well_keyed)).
  - right. left. reflexivity.
  - reflexivity.
Defined.

Lemma post_then_get_witness :
  get_task (Demo.as_user Demo.alice "3" Demo.no_query JNull)
    (mkStore [Demo.task1; Demo.task2;
              Task.mk 3 "Fix bug" None todo medium 5 None 7 None 300 300] 4)
  = (res_json (TaskBody (Task.mk 3 "Fix bug" None todo medium 5 None 7 None 300 300)),
     mkStore [Demo.task1; Demo.task2;
              Task.mk 3 "Fix bug" None todo medium 5 None 7 None 300 300] 4).
Proof.
  apply (post_then_get Demo.is_datetime Demo.to_ms Demo.is_project Demo.is_user Demo.in_range 300
           (Demo.as_user Demo.alice "" Demo.no_query Demo.fix_bug)
           (Demo.as_user Demo.alice "3" Demo.no_query JNull)
           Demo.db _ "Task created successfully" _ (proj2 demo_well_keyed)).
  - reflexivity.
  - reflexivity.
Defined.

Lemma delete_task_removes_witness :
  delete_task (Demo.as_user Demo.alice "1" Demo.no_query JNull) Demo.db
  = (res_json (MessageBody "Task deleted successfully"), mkStore [Demo.task2] 3).
Proof.
  apply (proj1 (delete_task_removes
                  (Demo.as_user Demo.alice "1" Demo.no_query JNull)
                  Demo.db 1 Demo.task1 eq_refl (or_introl eq_refl) eq_refl)).
Defined.

Lemma delete_then_not_found_witness :
  delete_task (Demo.as_user Demo.alice "1" Demo.no_query JNull)
    (snd (delete_task (Demo.as_user Demo.alice "1" Demo.no_query JNull) Demo.db))
  = (NotFound,
     snd (delete_task (Demo.as_user Demo.alice "1" Demo.no_query JNull) Demo.db)).
Proof.
  exact (proj2 (proj1 (delete_then_not_found
                         (Demo.as_user Demo.alice "1" Demo.no_query JNull)
                         Demo.db 1 eq_refl)
                  eq_refl)).
Defined.

Lemma put_task_frame_witness :
  nth_error
    (rows (snd (put_task Demo.is_datetime Demo.to_ms Demo.is_user Demo.in_range 300
                  (Demo.as_user Demo.alice "1" Demo.no_query
                     (JObj [("status", JStr "done")]))
                  Demo.db)))
    1
  = Some Demo.task2.
Proof.
  apply (proj2 (proj2 (put_task_frame Demo.is_datetime Demo.to_ms Demo.is_user Demo.in_range 300
                         (Demo.as_user Demo.alice "1" Demo.no_query
                            (JObj [("status", JStr "done")]))
                         Demo.db))
           1%nat Demo.task2 eq_refl).
  discriminate.
Defined.

Lemma put_then_get_witness :
  get_task (Demo.as_user Demo.alice "1" Demo.no_query (JObj [("priority", JStr "low")]))
    (snd (put_task Demo.is_datetime Demo.to_ms Demo.is_user Demo.in_range 300
            (Demo.as_user Demo.alice "1" Demo.no_query
               (JObj [("priority", JStr "low")]))
            Demo.db))
  = (res_json (TaskBody
                 (Task.mk 1 "Implement feature X" None todo low 5 (Some 7) 7 None 100 300)),
     snd (put_task Demo.is_datetime Demo.to_ms Demo.is_user Demo.in_range 300
            (Demo.as_user Demo.alice "1" Demo.no_query
               (JObj [("priority", JStr "low")]))
            Demo.db)).
Proof.
  exact (put_then_get Demo.is_datetime Demo.to_ms Demo.is_user Demo.in_range 300
           (Demo.as_user Demo.alice "1" Demo.no_query
              (JObj [("priority", JStr "low")]))
           Demo.db "Task updated successfully" _ eq_refl).
Defined.

Lemma authenticateToken_sound_witness :
  exists h tk claims,
    Some "Bearer alice" = Some h
    /\ nth_error (JS.split " " h) 1 = Some tk
    /\ tk <> ""
    /\ Demo.verify tk Demo.secret = Decoded claims
    /\ mkRequest (Some "Bearer alice") "" Demo.no_query JNull (Some Demo.alice)
       = mkRequest (Some "Bearer alice") "" Demo.no_query JNull
           (Some (User.mk (userId claims) (jwt_role claims))).
Proof.
  exact (authenticateToken_sound Demo.verify Demo.secret
           (Demo.request (Some "Bearer alice") "" Demo.no_query JNull)
           (mkRequest (Some "Bearer alice") "" Demo.no_query JNull (Some Demo.alice))
           eq_refl).
Defined.

Lemma authenticateToken_ignores_scheme_witness :
  match authenticateToken Demo.verify Demo.secret
          (Demo.request (Some "Basic alice") "" Demo.no_query JNull),
        authenticateToken Demo.verify Demo.secret
          (Demo.request (Some "Bearer alice") "" Demo.no_query JNull)
  with
  | Respond r, Respond r' => r = r'
  | Next q, Next q' => user q = user q'
  | _, _ => False
  end.
Proof.
  exact (authenticateToken_ignores_scheme Demo.verify Demo.secret
           (Demo.request None "" Demo.no_query JNull)
           "Basic" "Bearer" "alice" eq_refl eq_refl).
Defined.


Lemma requireAdmin_after_authenticateToken_witness :
  exists tk claims,
    Demo.verify tk Demo.secret = Decoded claims
    /\ requireAdmin
         (mkRequest (Some "Bearer root") "" Demo.no_query JNull (Some Demo.root))
       = if String.eqb (jwt_role claims) "admin"
         then Next (mkRequest (Some "Bearer root") "" Demo.no_query JNull
                      (Some Demo.root))
         else Respond (Forbidden "Admin access required").
Proof.
  exact (requireAdmin_after_authenticateToken Demo.verify Demo.secret
           (Demo.request (Some "Bearer root") "" Demo.no_query JNull)
           (mkRequest (Some "Bearer root") "" Demo.no_query JNull (Some Demo.root))
           eq_refl).
Defined.

Lemma search_finds_occurrences_witness :
  In Demo.task1
    (listed (get_tasks
               (Demo.as_user Demo.alice ""
                  (mkQuery None None None None (Some "feature")) JNull)
               Demo.db)).
Proof.
  apply (search_finds_occurrences
           (Demo.as_user Demo.alice ""
              (mkQuery None None None None (Some "feature")) JNull)
           Demo.db Demo.task1 "feature" "Implement " " X"
           eq_refl).
  - discriminate.
  - reflexivity.
  - reflexivity.
  - reflexivity.
  - reflexivity.
  - reflexivity.
  - left. reflexivity.
  - left. reflexivity.
Defined.

Lemma errors_change_nothing_witness :
  rows (snd (post_task Demo.is_datetime Demo.to_ms Demo.is_project Demo.is_user
               Demo.in_range 300
               (Demo.as_user Demo.alice "" Demo.no_query
                  (JObj [("title", JStr "Orphan"); ("projectId", JNum 6)]))
               Demo.db))
  = rows Demo.db
  /\ snd (put_task Demo.is_datetime Demo.to_ms Demo.is_user Demo.in_range 300
            (Demo.as_user Demo.alice "999" Demo.no_query (JObj [])) Demo.db)
     = Demo.db.
Proof.
  split.
  - apply (proj1 (errors_change_nothing Demo.is_datetime Demo.to_ms Demo.is_project
                    Demo.is_user Demo.in_range 300
                    (Demo.as_user Demo.alice "" Demo.no_query
                       (JObj [("title", JStr "Orphan"); ("projectId", JNum 6)]))
                    Demo.db)).
    discriminate.
  - apply (proj1 (proj2 (errors_change_nothing Demo.is_datetime Demo.to_ms
                           Demo.is_project Demo.is_user Demo.in_range 300
                           (Demo.as_user Demo.alice "999" Demo.no_query (JObj []))
                           Demo.db))).
    discriminate.
Defined.

Lemma demo_rows_older : forall t, In t (rows Demo.db) -> Task.createdAt t < 300.
Proof.
  intros t [<- | [<- | []]]; reflexivity.
Defined.

Lemma created_task_listed_first_witness :
  exists l,
    listed (get_tasks (Demo.as_user Demo.alice "" Demo.no_query JNull)
              (mkStore [Demo.task1; Demo.task2;
                        Task.mk 3 "Fix bug" None todo medium 5 None 7 None 300 300] 4))
    = Task.mk 3 "Fix bug" None todo medium 5 None 7 None 300 300 :: l.
Proof.
  apply (created_task_listed_first Demo.is_datetime Demo.to_ms Demo.is_project Demo.is_user Demo.in_range 300
           (Demo.as_user Demo.alice "" Demo.no_query Demo.fix_bug)
           (Demo.as_user Demo.alice "" Demo.no_query JNull)
           Demo.db _ "Task created successfully" _ demo_rows_older eq_refl).
  repeat split.
Defined.

Lemma id_trailing_characters_ignored_witness :
  JS.parseInt "2abc" = JS.parseInt "2"
  /\ JS.parseInt "2" <> JS.NaN
  /\ get_task (Demo.as_user Demo.alice "2abc" Demo.no_query JNull) Demo.db
     = get_task (Demo.as_user Demo.alice "2" Demo.no_query JNull) Demo.db
  /\ delete_task (Demo.as_user Demo.alice "2abc" Demo.no_query JNull) Demo.db
     = delete_task (Demo.as_user Demo.alice "2" Demo.no_query JNull) Demo.db.
Proof.
  apply (id_trailing_characters_ignored
           (Demo.as_user Demo.alice "2abc" Demo.no_query JNull)
           (Demo.as_user Demo.alice "2" Demo.no_query JNull)
           Demo.db "2" "abc").
  - discriminate.
  - reflexivity.
  - reflexivity.
  - reflexivity.
  - reflexivity.
Defined.

Lemma filters_narrow_witness :
  In Demo.task2
    (listed (get_tasks
               (Demo.as_user Demo.alice "" (mkQuery (Some "done") None None None None)
                  JNull)
               Demo.db)).
Proof.
  apply (filters_narrow
           (Demo.as_user Demo.alice "" (mkQuery (Some "done") None None None None)
              JNull)
           (Demo.as_user Demo.alice ""
              (mkQuery (Some "done") None (Some "5") None (Some "bug")) JNull)
           Demo.db Demo.task2).
  - repeat split; try discriminate.
  - left. reflexivity.
Defined.

Lemma put_task_rejects_exactly_witness :
  exists issues,
    put_task Demo.is_datetime Demo.to_ms Demo.is_user Demo.in_range 300
      (Demo.as_user Demo.alice "1" Demo.no_query (JObj [("title", JStr "")]))
      Demo.db
    = (ValidationError issues, Demo.db).
Proof.
  apply (proj2 (put_task_rejects_exactly Demo.is_datetime Demo.to_ms Demo.is_user Demo.in_range 300
                  (Demo.as_user Demo.alice "1" Demo.no_query
                     (JObj [("title", JStr "")]))
                  Demo.db 1 eq_refl)).
  intros (o & Hb & ([Hn | (s & Hs & Hne)] & _)); injection Hb as <-.
  - discriminate Hn.
  - injection Hs as <-. apply Hne. reflexivity.
Defined.
